(** * Dask serialization hooks of cudf_polars

    A shallow embedding of
    [python/cudf_polars/cudf_polars/experimental/dask_serialize.py]:
    the buffer classifier [frames_to_gpumemoryview] and the six hooks that
    [register] installs (device path: [cuda_serialize], [cuda_deserialize];
    host path: [dask_serialize], [dask_deserialize]).

    Python objects live in a heap and are named by references, so that
    "the same object" and "a new wrapper around it" are different things.
    Device memory is a separate store; every allocation and copy performed
    by the device runtime is recorded in a trace.  Hooks are computations in
    a state-and-exception monad over that world. *)

From Stdlib.Strings Require Import Byte.
From stdpp Require Import base option list strings gmap.


(** ** Data model *)

(** A reference to a Python object: its index in the heap. *)
Abbreviation ref := nat (only parsing).

(** The [__cuda_array_interface__] dictionary of an object: the device
    pointer [data[0]], [shape], [strides] ([None] or a tuple) and
    [typestr]. *)
Record cuda_array_interface := CAI {
  cai_data : nat;
  cai_shape : list nat;
  cai_strides : option (list Z);
  cai_typestr : string;
}.

#[global] Instance cuda_array_interface_eq_dec : EqDecision cuda_array_interface.
Proof. solve_decision. Defined.

(** The kinds of objects that travel as frames.
    - [PyBytes], [PyMemoryview]: host buffers (bytes-like, no CUDA array
      interface); a memoryview keeps a reference to the object it views.
    - [DeviceBuffer]: an [rmm.DeviceBuffer] owning [size] bytes at [ptr].
    - [Gpumemoryview]: a [plc.gpumemoryview]; it keeps a reference to the
      object it wraps, and its interface is that object's interface.
    - [CudaArray]: any other object that exposes the CUDA array interface.
    - [PyObject]: any other object. *)
Inductive pyobj :=
  | PyBytes (b : list byte)
  | PyMemoryview (obj : ref) (b : list byte)
  | DeviceBuffer (ptr size : nat)
  | Gpumemoryview (obj : ref) (cai : cuda_array_interface)
  | CudaArray (cai : cuda_array_interface)
  | PyObject.

Inductive exn :=
  | AssertionError
  | AttributeError
  | IndexError
  | TypeError
  | ValueError
  | RuntimeError
  | CommClosedError
  | GenReturn
  | UserError (code : nat).

#[global] Instance exn_eq_dec : EqDecision exn.
Proof. solve_decision. Defined.

(** What the device runtime was asked to do. *)
Inductive event :=
  | EvAlloc (ptr size : nat)
  | EvMemcpyDtoD (src dst size : nat)
  | EvMemcpyDtoH (src size : nat)
  | EvMemcpyHtoD (dst size : nat).

Record world := World {
  heap : list pyobj;
  dmem : list byte;
  trace : list event;
  log : list exn;
}.

(** ** The monad of hooks *)

Inductive result (A : Type) :=
  | Ok (a : A)
  | Raise (e : exn).
Arguments Ok {A} a.
Arguments Raise {A} e.

Definition M (A : Type) : Type := world → result A * world.

#[global] Instance M_ret : MRet M := λ A a w, (Ok a, w).
#[global] Instance M_bind : MBind M := λ A B f m w,
  match m w with
  | (Ok a, w') => f a w'
  | (Raise e, w') => (Raise e, w')
  end.

Definition raise {A} (e : exn) : M A := λ w, (Raise e, w).

(** The [assert] statement. *)
Definition assert (b : bool) : M unit :=
  if b then mret () else raise AssertionError.

Definition get_heap : M (list pyobj) := λ w, (Ok (heap w), w).
Definition get_dmem : M (list byte) := λ w, (Ok (dmem w), w).

Definition new_object (o : pyobj) : M ref := λ w,
  (Ok (length (heap w)),
   World (heap w ++ [o]) (dmem w) (trace w) (log w)).

Definition emit (ev : event) : M unit := λ w,
  (Ok (), World (heap w) (dmem w) (trace w ++ [ev]) (log w)).

(** ** Python built-ins used by the hooks *)

(** The interface an object exposes, if any.  An [rmm.DeviceBuffer] is a
    flat array of bytes with unset strides; a [plc.gpumemoryview] exposes the
    interface of the object it wraps (the host-path hook reads
    [gpudata.__cuda_array_interface__] of such a handle); host buffers expose
    none. *)
Definition cuda_array_interface_of (o : pyobj) : option cuda_array_interface :=
  match o with
  | DeviceBuffer ptr size => Some (CAI ptr [size] None "|u1"%string)
  | Gpumemoryview _ cai => Some cai
  | CudaArray cai => Some cai
  | PyBytes _ | PyMemoryview _ _ | PyObject => None
  end.

Definition host_bytes_of (o : pyobj) : option (list byte) :=
  match o with
  | PyBytes b | PyMemoryview _ b => Some b
  | _ => None
  end.

(** [hasattr(f, "__cuda_array_interface__")]. *)
Definition hasattr_cuda_array_interface (f : ref) : M bool :=
  h ← get_heap;
  mret (bool_decide (is_Some (h !! f ≫= cuda_array_interface_of))).

(** [f.__cuda_array_interface__]. *)
Definition getattr_cuda_array_interface (f : ref) : M cuda_array_interface :=
  h ← get_heap;
  match h !! f ≫= cuda_array_interface_of with
  | Some cai => mret cai
  | None => raise AttributeError
  end.

(** [f.ptr]: an attribute of [plc.gpumemoryview] and [rmm.DeviceBuffer]. *)
Definition getattr_ptr (f : ref) : M nat :=
  h ← get_heap;
  match h !! f with
  | Some (Gpumemoryview _ cai) => mret (cai_data cai)
  | Some (DeviceBuffer ptr _) => mret ptr
  | _ => raise AttributeError
  end.

(** [header, (metadata, gpudata) = ...]: unpacking a 2-tuple. *)
Definition unpack2 (frames : list ref) : M (ref * ref) :=
  match frames with
  | [a; b] => mret (a, b)
  | _ => raise ValueError
  end.

(** [t[i]] on a list or tuple. *)
Definition getitem {A} (t : list A) (i : nat) : M A :=
  match t !! i with
  | Some x => mret x
  | None => raise IndexError
  end.

(** [memoryview(obj)]. *)
Definition memoryview (obj : ref) : M ref :=
  h ← get_heap;
  match h !! obj ≫= host_bytes_of with
  | Some b => new_object (PyMemoryview obj b)
  | None => raise TypeError
  end.

(** ** Device runtime (rmm)

    [rmm] is a package of its own; its operations are modelled from their
    documented behaviour, over a device memory that is one flat array of
    bytes in which an allocation takes the next free addresses. *)

Definition device_read (m : list byte) (ptr size : nat) : option (list byte) :=
  if decide (ptr + size ≤ length m) then Some (take size (drop ptr m)) else None.

(** Allocate [length b] bytes of device memory holding [b]. *)
Definition device_new (b : list byte) : M nat := λ w,
  let ptr := length (dmem w) in
  (Ok ptr,
   World (heap w) (dmem w ++ b) (trace w ++ [EvAlloc ptr (length b)]) (log w)).

(** [rmm.DeviceBuffer(ptr=ptr, size=size)]: a new buffer holding a copy of
    the [size] bytes at [ptr]. *)
Definition rmm_DeviceBuffer (ptr size : nat) : M ref :=
  m ← get_dmem;
  match device_read m ptr size with
  | Some b =>
      dst ← device_new b;
      emit (EvMemcpyDtoD ptr dst size);;
      new_object (DeviceBuffer dst size)
  | None => raise RuntimeError
  end.

(** [buf.copy_to_host()]. *)
Definition copy_to_host (buf : ref) : M ref :=
  h ← get_heap;
  match h !! buf with
  | Some (DeviceBuffer ptr size) =>
      m ← get_dmem;
      match device_read m ptr size with
      | Some b => emit (EvMemcpyDtoH ptr size);; new_object (PyBytes b)
      | None => raise RuntimeError
      end
  | _ => raise AttributeError
  end.

(** [rmm.DeviceBuffer.to_device(b)]. *)
Definition rmm_DeviceBuffer_to_device (b : ref) : M ref :=
  h ← get_heap;
  match h !! b ≫= host_bytes_of with
  | Some bs =>
      dst ← device_new bs;
      emit (EvMemcpyHtoD dst (length bs));;
      new_object (DeviceBuffer dst (length bs))
  | None => raise TypeError
  end.

(** Modelled from the spec: [plc.gpumemoryview(obj)] of pylibcudf, the
    native device-buffer handle.  It wraps an object that exposes the
    device-memory interface, is a non-owning view (nothing is allocated
    or copied on the device) and exposes the same interface as the object
    it wraps. *)
Definition plc_gpumemoryview (obj : ref) : M ref :=
  h ← get_heap;
  match h !! obj ≫= cuda_array_interface_of with
  | Some cai => new_object (Gpumemoryview obj cai)
  | None => raise ValueError
  end.

(** Modelled from the library: [distributed.utils.log_errors] is code of
    the distributed package, not of this repository.  On leaving the [with]
    block with an exception, its [__exit__] calls [logger.exception] on it,
    except for a [CommClosedError] of [distributed.comm] and a tornado
    [gen.Return], which it lets pass unlogged; in every case it returns
    [None], so the exception propagates. *)
Definition logger_exception (e : exn) (w : world) : world :=
  World (heap w) (dmem w) (trace w) (log w ++ [e]).

Definition unlogged (e : exn) : bool :=
  match e with
  | CommClosedError | GenReturn => true
  | _ => false
  end.

Definition log_errors_exit (e : exn) (w : world) : world :=
  if unlogged e then w else logger_exception e w.

Definition log_errors {A} (body : M A) : M A := λ w,
  match body w with
  | (Ok a, w') => (Ok a, w')
  | (Raise e, w') => (Raise e, log_errors_exit e w')
  end.

(** ** The buffer classifier *)

Definition frames_to_gpumemoryview (frames : list ref) : M (list ref) :=
  mapM (λ f,
    has ← hasattr_cuda_array_interface f;
    if has : bool then plc_gpumemoryview f else mret f) frames.

(** ** The object layer

    [Column] and [DataFrame] both provide [x.serialize()], returning a
    header and a tuple of frames, and the class method
    [T.deserialize(header, frames)]. *)
Class Serializable (Header T : Type) := {
  serialize : T → M (Header * list ref);
  deserialize : Header → list ref → M T;
}.

(** ** The hooks installed by [register]

    Each hook is a [with log_errors():] block; the suite of the block is
    given a name of its own ([..._body]). *)
Section register.
Context {Header Column DataFrame : Type}.
Context `{ColumnLayer : !Serializable Header Column}.
Context `{DataFrameLayer : !Serializable Header DataFrame}.

(** [x.serialize()] for [x: DataFrame | Column]. *)
Definition x_serialize (x : DataFrame + Column) : M (Header * list ref) :=
  match x with
  | inl df => serialize df
  | inr col => serialize col
  end.

(** [@cuda_serialize.register((Column, DataFrame))] *)
Definition cuda_serialize_body (x : DataFrame + Column)
    : M (Header * list ref) :=
  '(header, frames) ← x_serialize x;
  mret (header, frames).

Definition cuda_serialize (x : DataFrame + Column) : M (Header * list ref) :=
  log_errors (cuda_serialize_body x).

(** [@cuda_deserialize.register(DataFrame)] *)
Definition cuda_deserialize_DataFrame_body (header : Header)
    (frames : list ref) : M DataFrame :=
  frames ← frames_to_gpumemoryview frames;
  assert (bool_decide (length frames = 2));;
  deserialize header frames.

Definition cuda_deserialize_DataFrame (header : Header) (frames : list ref)
    : M DataFrame :=
  log_errors (cuda_deserialize_DataFrame_body header frames).

(** [@cuda_deserialize.register(Column)] *)
Definition cuda_deserialize_Column_body (header : Header)
    (frames : list ref) : M Column :=
  frames ← frames_to_gpumemoryview frames;
  assert (bool_decide (length frames = 2));;
  deserialize header frames.

Definition cuda_deserialize_Column (header : Header) (frames : list ref)
    : M Column :=
  log_errors (cuda_deserialize_Column_body header frames).

(** [@dask_serialize.register((Column, DataFrame))] *)
Definition dask_serialize_body (x : DataFrame + Column)
    : M (Header * list ref) :=
  '(header, frames) ← x_serialize x;
  '(metadata, gpudata) ← unpack2 frames;
  cai ← getattr_cuda_array_interface gpudata;
  assert (bool_decide (length (cai_shape cai) = 1));;
  assert (bool_decide (cai_strides cai = None)
          || bool_decide (cai_strides cai = Some [1%Z]));;
  assert (bool_decide (cai_typestr cai = "|u1"%string));;
  nbytes ← getitem (cai_shape cai) 0;
  ptr ← getattr_ptr gpudata;
  buf ← rmm_DeviceBuffer ptr nbytes;
  host ← copy_to_host buf;
  gpudata_on_host ← memoryview host;
  mret (header, [metadata; gpudata_on_host]).

Definition dask_serialize (x : DataFrame + Column) : M (Header * list ref) :=
  log_errors (dask_serialize_body x).

(** [@dask_deserialize.register(DataFrame)] *)
Definition dask_deserialize_DataFrame_body (header : Header)
    (frames : list ref) : M DataFrame :=
  assert (bool_decide (length frames = 2));;
  frame0 ← getitem frames 0;
  frame1 ← getitem frames 1;
  buf ← rmm_DeviceBuffer_to_device frame1;
  gpudata ← plc_gpumemoryview buf;
  deserialize header [frame0; gpudata].

Definition dask_deserialize_DataFrame (header : Header) (frames : list ref)
    : M DataFrame :=
  log_errors (dask_deserialize_DataFrame_body header frames).

(** [@dask_deserialize.register(Column)] *)
Definition dask_deserialize_Column_body (header : Header)
    (frames : list ref) : M Column :=
  assert (bool_decide (length frames = 2));;
  frame0 ← getitem frames 0;
  frame1 ← getitem frames 1;
  buf ← rmm_DeviceBuffer_to_device frame1;
  gpudata ← plc_gpumemoryview buf;
  deserialize header [frame0; gpudata].

Definition dask_deserialize_Column (header : Header) (frames : list ref)
    : M Column :=
  log_errors (dask_deserialize_Column_body header frames).
End register.

(** ** A model of the object layer

    The content of a Column or DataFrame is a pure value; [pack] lays it
    out as an opaque header, a host metadata buffer and a payload, and
    [unpack] reads a value back from these three. *)
Class Codec (Header T : Type) := {
  pack : T → Header * list byte * list byte;
  unpack : Header → list byte → list byte → result T;
}.

Definition lift_result {A} (r : result A) : M A := λ w, (r, w).

Section object_layer.
Context {Header T : Type} `{Packing : !Codec Header T}.

(** Modelled from the spec: [x.serialize()] of cudf_polars' Column and
    DataFrame.  It yields the header and exactly two buffers: a host
    metadata buffer and a data buffer, the latter one contiguous region of
    device memory behind a native device-buffer handle. *)
Definition packed_serialize (x : T) : M (Header * list ref) :=
  let '(header, metadata, data) := pack x in
  host ← new_object (PyBytes metadata);
  metadata ← memoryview host;
  ptr ← device_new data;
  buf ← new_object (DeviceBuffer ptr (length data));
  gpudata ← plc_gpumemoryview buf;
  mret (header, [metadata; gpudata]).

(** Modelled from the spec: [T.deserialize(header, frames)] of cudf_polars'
    Column and DataFrame.  It rebuilds the object from the content of the
    two buffers: the bytes of the host metadata buffer and the bytes that
    the native handle views in device memory; which objects carry those
    bytes does not matter. *)
Definition packed_deserialize (header : Header) (frames : list ref) : M T :=
  '(metadata, gpudata) ← unpack2 frames;
  h ← get_heap;
  match h !! metadata ≫= host_bytes_of, h !! gpudata with
  | Some mb, Some (Gpumemoryview _ cai) =>
      nbytes ← getitem (cai_shape cai) 0;
      m ← get_dmem;
      match device_read m (cai_data cai) nbytes with
      | Some data => lift_result (unpack header mb data)
      | None => raise RuntimeError
      end
  | _, _ => raise TypeError
  end.

Definition packed_layer : Serializable Header T :=
  {| serialize := packed_serialize; deserialize := packed_deserialize |}.
End object_layer.

(** ** Sample objects

    A column of nullable bytes and a frame of such columns, with a packing
    in the style of the object layer: the header lists the row counts, the
    metadata buffer is the validity mask and the payload holds the values. *)
Definition sample_column := list (option byte).
Definition sample_frame := list sample_column.

Definition validity (v : option byte) : byte :=
  match v with Some _ => x01 | None => x00 end.

Definition restore (valid value : byte) : option byte :=
  if Byte.eqb valid x00 then None else Some value.

Definition pack_column (c : sample_column) : list nat * list byte * list byte :=
  ([length c], validity <$> c, default x00 <$> c).

Definition unpack_column (header : list nat) (mask data : list byte)
    : result sample_column :=
  if bool_decide (header = [length mask] ∧ length mask = length data)
  then Ok (zip_with restore mask data)
  else Raise (UserError 0).

Definition pack_frame (df : sample_frame) : list nat * list byte * list byte :=
  (length <$> df, df ≫= fmap validity, df ≫= fmap (default x00)).

Fixpoint unpack_frame (header : list nat) (mask data : list byte)
    : result sample_frame :=
  match header with
  | [] =>
      if bool_decide (mask = [] ∧ data = [])
      then Ok [] else Raise (UserError 1)
  | n :: header' =>
      if bool_decide (n ≤ length mask ∧ n ≤ length data)
      then
        match unpack_frame header' (drop n mask) (drop n data) with
        | Ok df => Ok (zip_with restore (take n mask) (take n data) :: df)
        | Raise e => Raise e
        end
      else Raise (UserError 1)
  end.

#[global] Instance byte_eq_dec : EqDecision byte := Byte.byte_eq_dec.

Definition column_codec : Codec (list nat) sample_column :=
  {| pack := pack_column; unpack := unpack_column |}.
Definition frame_codec : Codec (list nat) sample_frame :=
  {| pack := pack_frame; unpack := unpack_frame |}.

(** Five integers, the third one null. *)
Definition five_with_null : sample_column :=
  [Some x0a; Some x14; None; Some x28; Some x32].

Definition two_columns : sample_frame :=
  [[Some x61; Some x62; None]; [Some x01; Some x02; Some x03]].

Definition empty_world : world := World [] [] [] [].

(** A test double for the object layer: its data buffer is a device array
    with whatever interface the test asks for, behind a native handle. *)
Definition synthetic_serialize (cai : cuda_array_interface)
    : M (unit * list ref) :=
  metadata ← new_object (PyBytes []);
  arr ← new_object (CudaArray cai);
  gpudata ← plc_gpumemoryview arr;
  mret ((), [metadata; gpudata]).

Definition synthetic_layer : Serializable unit cuda_array_interface :=
  {| serialize := synthetic_serialize;
     deserialize := λ _ _, raise (UserError 2) |}.

(** A world in which frame 1 is a native handle on the device buffer 0. *)
Definition native_world : world :=
  World [DeviceBuffer 0 4; Gpumemoryview 0 (CAI 0 [4] None "|u1"%string)]
        [x01; x02; x03; x04] [] [].

(** The world [w] with heap [h]. *)
Definition with_heap (w : world) (h : list pyobj) : world :=
  World h (dmem w) (trace w) (log w).

(** How the classifier relates an input frame [f] to the output frame [f']
    at the same index, from the heap [h] before to the heap [h'] after: a
    frame that exposes the interface is wrapped in a new native handle,
    any other frame is returned as it is. *)
Definition classified (h h' : list pyobj) (f f' : ref) : Prop :=
  match h !! f ≫= cuda_array_interface_of with
  | Some cai => length h ≤ f' ∧ h' !! f' = Some (Gpumemoryview f cai)
  | None => f' = f
  end.

(** The host path's precondition on the data buffer. *)
Definition contiguous_bytes (cai : cuda_array_interface) : Prop :=
  length (cai_shape cai) = 1
  ∧ (cai_strides cai = None ∨ cai_strides cai = Some [1%Z])
  ∧ cai_typestr cai = "|u1"%string.

(** The output frame [f'] comes from the input frame [f]: it is [f]
    itself or a native handle that wraps [f]. *)
Definition derived (h' : list pyobj) (f f' : ref) : Prop :=
  f' = f ∨ ∃ cai, h' !! f' = Some (Gpumemoryview f cai).

(** A world with one frame of each kind: host bytes, a device buffer as a
    transport delivers it, a native handle on that buffer, and an object
    that is no buffer at all. *)
Definition mixed_world : world :=
  World [PyBytes [x2a]; DeviceBuffer 0 2;
         Gpumemoryview 1 (CAI 0 [2] None "|u1"%string); PyObject]
        [x07; x08] [] [].

(** The world after the bytes [b] were copied to a new device buffer
    ([rmm.DeviceBuffer.to_device]) and that buffer was wrapped in a native
    handle: the buffer is object [length (heap w)], the handle is the next
    one. *)
Definition copied_to_device (w : world) (b : list byte) : world :=
  World (heap w ++ [DeviceBuffer (length (dmem w)) (length b);
                    Gpumemoryview (length (heap w))
                      (CAI (length (dmem w)) [length b] None "|u1"%string)])
        (dmem w ++ b)
        (trace w ++ [EvAlloc (length (dmem w)) (length b);
                     EvMemcpyHtoD (length (dmem w)) (length b)])
        (log w).

(** The world after the bytes [b] at [ptr] were staged in a new device
    buffer ([rmm.DeviceBuffer(ptr=, size=)]), copied to the host
    ([copy_to_host]) and viewed ([memoryview]): the view is object
    [S (S (length (heap w)))]. *)
Definition copied_to_host (w : world) (ptr : nat) (b : list byte) : world :=
  World (heap w ++ [DeviceBuffer (length (dmem w)) (length b); PyBytes b;
                    PyMemoryview (S (length (heap w))) b])
        (dmem w ++ b)
        (trace w ++ [EvAlloc (length (dmem w)) (length b);
                     EvMemcpyDtoD ptr (length (dmem w)) (length b);
                     EvMemcpyDtoH (length (dmem w)) (length b)])
        (log w).

(** The world after [packed_serialize] laid out the metadata [m] and the
    payload [d]: the metadata view is object [S (length (heap w))], the
    native handle on the payload is object [S (S (S (length (heap w))))]. *)
Definition packed_world (w : world) (m d : list byte) : world :=
  World (heap w ++ [PyBytes m; PyMemoryview (length (heap w)) m;
                    DeviceBuffer (length (dmem w)) (length d);
                    Gpumemoryview (S (S (length (heap w))))
                      (CAI (length (dmem w)) [length d] None "|u1"%string)])
        (dmem w ++ d)
        (trace w ++ [EvAlloc (length (dmem w)) (length d)])
        (log w).

(** [deserialize] is a left inverse of [serialize]: rebuilding an object
    from what its own [serialize] returned gives an equal object. *)
Definition left_inverse (Header T : Type) `{Layer : !Serializable Header T}
    : Prop :=
  ∀ (x : T) (w : world), ∃ header frames w1 w2,
    serialize x w = (Ok (header, frames), w1)
    ∧ deserialize header frames w1 = (Ok x, w2).

(** The object layer of the sample objects. *)
Definition column_layer : Serializable (list nat) sample_column :=
  @packed_layer _ _ column_codec.
Definition frame_layer : Serializable (list nat) sample_frame :=
  @packed_layer _ _ frame_codec.

(** A data buffer with strides [(2,)]. *)
Definition strided : cuda_array_interface :=
  CAI 0 [4] (Some [2%Z]) "|u1"%string.

(** The world after the test double serialized the [strided] buffer:
    the native handle is object 2. *)
Definition strided_world : world :=
  World [PyBytes []; CudaArray strided; Gpumemoryview 1 strided] [] [] [].

(** The payload of [five_with_null] and the world after its
    [serialize]: the metadata view is object 1, the native handle on the
    payload is object 3. *)
Definition five_payload : list byte := [x0a; x14; x00; x28; x32].
Definition five_world : world :=
  packed_world empty_world [x01; x01; x00; x01; x01] five_payload.

(** ** Further notions used to describe the code *)

(** The frame [f] exposes [__cuda_array_interface__] in the heap [h]. *)
Definition exposes (h : list pyobj) (f : ref) : Prop :=
  is_Some (h !! f ≫= cuda_array_interface_of).

#[global] Instance exposes_dec h f : Decision (exposes h f).
Proof. unfold exposes. apply _. Defined.

(** The computation returned a value. *)
Definition returns {A} (r : result A * world) : Prop :=
  match r.1 with Ok _ => True | Raise _ => False end.

#[global] Instance M_fmap : FMap M := λ A B f m w,
  match m w with
  | (Ok a, w') => (Ok (f a), w')
  | (Raise e, w') => (Raise e, w')
  end.

(** ** [register] and the dispatch tables

    [cuda_serialize], [cuda_deserialize], [dask_serialize] and
    [dask_deserialize] of [distributed.protocol] are dispatch tables from a
    class to a hook; [table.register(cls)] stores a hook under a class,
    [table.register((cls1, cls2))] under each class in turn, and
    [table.dispatch(cls)] looks the hook up, raising [TypeError] when there
    is none.  Classes are named by their [__name__]. *)
Section registry.
Context {Header Column DataFrame : Type}.
Context `{ColumnLayer : !Serializable Header Column}.
Context `{DataFrameLayer : !Serializable Header DataFrame}.

Record registry := Registry {
  cuda_serialize_table :
    gmap string (DataFrame + Column → M (Header * list ref));
  cuda_deserialize_table :
    gmap string (Header → list ref → M (DataFrame + Column));
  dask_serialize_table :
    gmap string (DataFrame + Column → M (Header * list ref));
  dask_deserialize_table :
    gmap string (Header → list ref → M (DataFrame + Column));
}.

(** [def register() -> None]: the six decorated definitions, in order. *)
Definition register (r : registry) : registry :=
  {| cuda_serialize_table :=
       <["DataFrame" := cuda_serialize]>
         (<["Column" := cuda_serialize]> (cuda_serialize_table r));
     cuda_deserialize_table :=
       <["Column" := λ header frames,
            inr <$> cuda_deserialize_Column header frames]>
         (<["DataFrame" := λ header frames,
              inl <$> cuda_deserialize_DataFrame header frames]>
            (cuda_deserialize_table r));
     dask_serialize_table :=
       <["DataFrame" := dask_serialize]>
         (<["Column" := dask_serialize]> (dask_serialize_table r));
     dask_deserialize_table :=
       <["Column" := λ header frames,
            inr <$> dask_deserialize_Column header frames]>
         (<["DataFrame" := λ header frames,
              inl <$> dask_deserialize_DataFrame header frames]>
            (dask_deserialize_table r)) |}.

(** [type(x).__name__]. *)
Definition type_name (x : DataFrame + Column) : string :=
  match x with
  | inl _ => "DataFrame"
  | inr _ => "Column"
  end.
End registry.

(** [table.dispatch(cls)]. *)
Definition dispatch {Hook} (table : gmap string Hook) (cls : string) : M Hook :=
  match table !! cls with
  | Some hook => mret hook
  | None => raise TypeError
  end.

(** How the transport uses a serialize table: the hook of [type(x)] is
    applied to [x]. *)
Definition dumps {Header Obj} (table : gmap string (Obj → M (Header * list ref)))
    (cls : string) (x : Obj) : M (Header * list ref) :=
  hook ← dispatch table cls;
  hook x.

(** How the transport uses a deserialize table: the hook of the class named
    in the message is applied to the header and the frames. *)
Definition loads {Header Obj}
    (table : gmap string (Header → list ref → M Obj))
    (cls : string) (header : Header) (frames : list ref) : M Obj :=
  hook ← dispatch table cls;
  hook header frames.

(** The sample registry: nothing registered yet. *)
Definition empty_registry
    : @registry (list nat) sample_column sample_frame :=
  Registry ∅ ∅ ∅ ∅.

(** ** [pylibcudf.nvtext]

    The package's [__init__] imports its submodules by name and lists the
    public names in [__all__]. *)
Definition nvtext_imports : list string :=
  ["byte_pair_encode"; "edit_distance"; "generate_ngrams"; "jaccard";
   "minhash"; "ngrams_tokenize"; "normalize"; "replace"; "stemmer";
   "subword_tokenize"; "tokenize"; "wordpiece_tokenize"].

Definition nvtext_all : list string :=
  ["byte_pair_encode"; "edit_distance"; "generate_ngrams"; "jaccard";
   "minhash"; "ngrams_tokenize"; "normalize"; "replace"; "stemmer";
   "subword_tokenize"; "tokenize"; "wordpiece_tokenize"].

(** [from module import *]: every name of [__all__] is fetched from the
    module's namespace; a name that is not bound there raises
    [AttributeError]. *)
Fixpoint import_star (namespace all : list string) : result (list string) :=
  match all with
  | [] => Ok []
  | name :: all' =>
      if bool_decide (name ∈ namespace)
      then match import_star namespace all' with
           | Ok names => Ok (name :: names)
           | Raise e => Raise e
           end
      else Raise AttributeError
  end.

(** A second test double: its [serialize] returns [n] frames, all of them
    the same host buffer. *)
Definition lopsided_serialize (n : nat) : M (unit * list ref) :=
  metadata ← new_object (PyBytes []);
  mret ((), replicate n metadata).

Definition lopsided_layer : Serializable unit nat :=
  {| serialize := lopsided_serialize;
     deserialize := λ _ _, raise (UserError 3) |}.

(** What a receiver holds after a transfer of [five_with_null]: on the
    device path, with UCX, the validity mask in a host buffer and the payload
    in an [rmm.DeviceBuffer]; on the host path, both in host buffers. *)
Definition five_mask : list byte := [x01; x01; x00; x01; x01].
Definition ucx_world : world :=
  World [PyBytes five_mask; DeviceBuffer 0 5] five_payload [] [].
Definition host_world : world :=
  World [PyBytes five_mask; PyBytes five_payload] [] [] [].

(** The sample frame as an object of either class. *)
Definition sent_frame : sample_frame + sample_column := inl two_columns.


(** ** Running the monad *)

Lemma bind_Ok {A B} (m : M A) (f : A → M B) w a w' :
  m w = (Ok a, w') → (m ≫= f) w = f a w'.
Proof. intros E. unfold mbind, M_bind. by rewrite E. Qed.

Lemma bind_Raise {A B} (m : M A) (f : A → M B) w e w' :
  m w = (Raise e, w') → (m ≫= f) w = (Raise e, w').
Proof. intros E. unfold mbind, M_bind. by rewrite E. Qed.

Lemma bind_inv_Ok {A B} (m : M A) (f : A → M B) w b w' :
  (m ≫= f) w = (Ok b, w') → ∃ a w1, m w = (Ok a, w1) ∧ f a w1 = (Ok b, w').
Proof.
  unfold mbind, M_bind. destruct (m w) as [[a|e] w1]; [eauto|discriminate].
Qed.

Lemma log_errors_Ok {A} (body : M A) w a w' :
  body w = (Ok a, w') → log_errors body w = (Ok a, w').
Proof. intros E. unfold log_errors. by rewrite E. Qed.

Lemma log_errors_Raise_exit {A} (body : M A) w e w' :
  body w = (Raise e, w') →
  log_errors body w = (Raise e, log_errors_exit e w').
Proof. intros E. unfold log_errors. by rewrite E. Qed.

Lemma log_errors_Raise {A} (body : M A) w e w' :
  unlogged e = false →
  body w = (Raise e, w') →
  log_errors body w = (Raise e, logger_exception e w').
Proof.
  intros He E. rewrite (log_errors_Raise_exit _ _ _ _ E).
  unfold log_errors_exit. by rewrite He.
Qed.

Lemma log_errors_Ok_inv {A} (body : M A) w a w' :
  log_errors body w = (Ok a, w') → body w = (Ok a, w').
Proof.
  unfold log_errors. destruct (body w) as [[a'|e] w1]; [|discriminate].
  by intros [= -> ->].
Qed.


Lemma assert_true (b : bool) w : b = true → assert b w = (Ok (), w).
Proof. by intros ->. Qed.

Lemma assert_false (b : bool) w :
  b = false → assert b w = (Raise AssertionError, w).
Proof. by intros ->. Qed.

Lemma assert_Ok_inv (b : bool) w u w' :
  assert b w = (Ok u, w') → b = true ∧ w' = w.
Proof. destruct b; [by intros [= <- <-]|discriminate]. Qed.

Ltac unfold_M :=
  unfold mbind, M_bind, mret, M_ret, get_heap, get_dmem, new_object, emit,
    device_new, raise, lift_result in *; simpl in *.

(** ** Device memory *)

Lemma device_read_length m ptr size b :
  device_read m ptr size = Some b → length b = size.
Proof.
  unfold device_read. case_decide; [|done]. intros [= <-].
  rewrite length_take, length_drop. lia.
Qed.

Lemma device_read_app m k ptr size b :
  device_read m ptr size = Some b → device_read (m ++ k) ptr size = Some b.
Proof.
  unfold device_read. case_decide as Hle; [|done]. intros [= <-].
  rewrite decide_True by (rewrite length_app; lia).
  f_equal. rewrite drop_app_le by lia. rewrite take_app_le; [done|].
  rewrite length_drop. lia.
Qed.

Lemma device_read_new m b : device_read (m ++ b) (length m) (length b) = Some b.
Proof.
  unfold device_read. rewrite decide_True by (rewrite length_app; lia).
  f_equal. rewrite drop_app_length. apply firstn_all.
Qed.

(** ** The buffer classifier, frame by frame *)

Lemma plc_gpumemoryview_run obj cai w :
  heap w !! obj ≫= cuda_array_interface_of = Some cai →
  plc_gpumemoryview obj w
  = (Ok (length (heap w)), with_heap w (heap w ++ [Gpumemoryview obj cai])).
Proof. intros E. unfold plc_gpumemoryview. unfold_M. by rewrite E. Qed.

Lemma classify_frame_wrap f cai w :
  heap w !! f ≫= cuda_array_interface_of = Some cai →
  (has ← hasattr_cuda_array_interface f;
   if has : bool then plc_gpumemoryview f else mret f) w
  = (Ok (length (heap w)), with_heap w (heap w ++ [Gpumemoryview f cai])).
Proof.
  intros E. erewrite bind_Ok; [|reflexivity]. simpl.
  rewrite bool_decide_eq_true_2 by (rewrite E; eauto).
  by apply plc_gpumemoryview_run.
Qed.

Lemma classify_frame_pass f w :
  heap w !! f ≫= cuda_array_interface_of = None →
  (has ← hasattr_cuda_array_interface f;
   if has : bool then plc_gpumemoryview f else mret f) w
  = (Ok f, w).
Proof.
  intros E. erewrite bind_Ok; [|reflexivity]. simpl.
  rewrite bool_decide_eq_false_2; [done|]. rewrite E. by intros [? ?].
Qed.

Lemma frames_to_gpumemoryview_nil w : frames_to_gpumemoryview [] w = (Ok [], w).
Proof. done. Qed.

Lemma frames_to_gpumemoryview_cons f frames w :
  frames_to_gpumemoryview (f :: frames) w =
    match heap w !! f ≫= cuda_array_interface_of with
    | Some cai =>
        match frames_to_gpumemoryview frames
                (with_heap w (heap w ++ [Gpumemoryview f cai])) with
        | (Ok rest, w') => (Ok (length (heap w) :: rest), w')
        | (Raise e, w') => (Raise e, w')
        end
    | None =>
        match frames_to_gpumemoryview frames w with
        | (Ok rest, w') => (Ok (f :: rest), w')
        | (Raise e, w') => (Raise e, w')
        end
    end.
Proof.
  unfold frames_to_gpumemoryview. simpl.
  destruct (heap w !! f ≫= cuda_array_interface_of) as [cai|] eqn:E.
  - erewrite bind_Ok; [|by apply classify_frame_wrap].
    unfold mbind at 1, M_bind at 1.
    by destruct (mapM (M:=M) _ frames _) as [[rest|e] w'].
  - erewrite bind_Ok; [|by apply classify_frame_pass].
    unfold mbind at 1, M_bind at 1.
    by destruct (mapM (M:=M) _ frames _) as [[rest|e] w'].
Qed.

(** The classifier never raises; it only appends native handles to the
    heap, and its output has one frame per input frame. *)
Lemma frames_to_gpumemoryview_total frames : ∀ w,
  ∃ out news,
    frames_to_gpumemoryview frames w = (Ok out, with_heap w (heap w ++ news))
    ∧ length out = length frames.
Proof.
  induction frames as [|f frames IH]; intros w.
  - exists [], []. rewrite app_nil_r. by destruct w.
  - rewrite frames_to_gpumemoryview_cons.
    destruct (heap w !! f ≫= cuda_array_interface_of) as [cai|].
    + destruct (IH (with_heap w (heap w ++ [Gpumemoryview f cai])))
        as (out & news & -> & Hlen).
      exists (length (heap w) :: out), (Gpumemoryview f cai :: news).
      simpl. rewrite <- app_assoc. split; [done|]. by rewrite Hlen.
    + destruct (IH w) as (out & news & -> & Hlen).
      exists (f :: out), news. simpl. by rewrite Hlen.
Qed.

Lemma classified_weaken (h : list pyobj) x k (f f' : ref) :
  f < length h →
  classified (h ++ [x]) ((h ++ [x]) ++ k) f f' →
  classified h (h ++ x :: k) f f'.
Proof.
  unfold classified. intros Hf.
  rewrite lookup_app_l by done.
  destruct (h !! f ≫= cuda_array_interface_of) as [cai|]; [|done].
  rewrite <- app_assoc. simpl. rewrite length_app. simpl.
  intros [? ?]. split; [lia|done].
Qed.

Lemma Forall2_classified_weaken (h : list pyobj) x k (frames out : list ref) :
  Forall (λ f, f < length h) frames →
  Forall2 (classified (h ++ [x]) ((h ++ [x]) ++ k)) frames out →
  Forall2 (classified h (h ++ x :: k)) frames out.
Proof.
  intros Hlive Hcls. induction Hcls as [|f f' frames out Hc _ IH].
  - constructor.
  - apply Forall_cons in Hlive as [Hf Hlive].
    constructor; [by apply classified_weaken|by apply IH].
Qed.

(** On a list of live references, every frame is classified in place. *)
Lemma frames_to_gpumemoryview_classified frames : ∀ w,
  Forall (λ f, f < length (heap w)) frames →
  ∃ out news,
    frames_to_gpumemoryview frames w = (Ok out, with_heap w (heap w ++ news))
    ∧ Forall2 (classified (heap w) (heap w ++ news)) frames out.
Proof.
  induction frames as [|f frames IH]; intros w Hlive.
  - exists [], []. rewrite app_nil_r. split; [by destruct w|constructor].
  - apply Forall_cons in Hlive as [Hf Hlive].
    rewrite frames_to_gpumemoryview_cons.
    destruct (heap w !! f ≫= cuda_array_interface_of) as [cai|] eqn:E.
    + destruct (IH (with_heap w (heap w ++ [Gpumemoryview f cai])))
        as (out & news & -> & Hcls).
      { simpl. rewrite length_app. simpl.
        eapply Forall_impl; [exact Hlive|]. simpl. intros; lia. }
      exists (length (heap w) :: out), (Gpumemoryview f cai :: news).
      simpl. rewrite <- app_assoc. split; [done|]. constructor.
      * unfold classified. rewrite E. split; [done|].
        by rewrite lookup_app_r, Nat.sub_diag.
      * simpl in Hcls.
        by apply Forall2_classified_weaken.
    + destruct (IH w Hlive) as (out & news & -> & Hcls).
      exists (f :: out), news. split; [done|]. constructor; [|done].
      unfold classified. by rewrite E.
Qed.

Lemma frames_to_gpumemoryview_derived frames : ∀ w,
  ∃ out news,
    frames_to_gpumemoryview frames w = (Ok out, with_heap w (heap w ++ news))
    ∧ Forall2 (derived (heap w ++ news)) frames out.
Proof.
  induction frames as [|f frames IH]; intros w.
  - exists [], []. rewrite app_nil_r. split; [by destruct w|constructor].
  - rewrite frames_to_gpumemoryview_cons.
    destruct (heap w !! f ≫= cuda_array_interface_of) as [cai|] eqn:E.
    + destruct (IH (with_heap w (heap w ++ [Gpumemoryview f cai])))
        as (out & news & -> & Hder).
      exists (length (heap w) :: out), (Gpumemoryview f cai :: news).
      simpl in *. rewrite <- app_assoc in *. simpl in *.
      split; [done|]. constructor; [|done].
      right. exists cai. by rewrite lookup_app_r, Nat.sub_diag.
    + destruct (IH w) as (out & news & -> & Hder).
      exists (f :: out), news. split; [done|]. constructor; [by left|done].
Qed.

(** ** Properties of the buffer classifier *)

(** C5: on a list of live frames, the classifier wraps every frame that
    exposes [__cuda_array_interface__] in a new native handle and returns
    every other frame as the identical object; objects already in the heap
    stay as they are, and device memory, the device trace and the log are
    untouched: nothing is copied. *)
Theorem frames_to_gpumemoryview_wraps_or_passes (frames : list ref) (w : world) :
  Forall (λ f, f < length (heap w)) frames →
  ∃ out w',
    frames_to_gpumemoryview frames w = (Ok out, w')
    ∧ Forall2 (classified (heap w) (heap w')) frames out
    ∧ heap w `prefix_of` heap w'
    ∧ dmem w' = dmem w ∧ trace w' = trace w ∧ log w' = log w.
Proof.
  intros Hlive.
  destruct (frames_to_gpumemoryview_classified frames w Hlive)
    as (out & news & Hrun & Hcls).
  exists out, (with_heap w (heap w ++ news)). simpl.
  repeat split; try done. by exists news.
Qed.

Lemma frames_to_gpumemoryview_wraps_or_passes_witness :
  Forall (λ f, f < length (heap mixed_world)) [0; 1; 2; 3]
  ∧ ∃ out w',
      frames_to_gpumemoryview [0; 1; 2; 3] mixed_world = (Ok out, w')
      ∧ Forall2 (classified (heap mixed_world) (heap w')) [0; 1; 2; 3] out
      ∧ heap mixed_world `prefix_of` heap w'
      ∧ dmem w' = dmem mixed_world ∧ trace w' = trace mixed_world
      ∧ log w' = log mixed_world.
Proof.
  assert (Hlive : Forall (λ f, f < length (heap mixed_world)) [0; 1; 2; 3])
    by (repeat constructor; simpl; lia).
  split; [exact Hlive|].
  exact (frames_to_gpumemoryview_wraps_or_passes [0; 1; 2; 3] mixed_world Hlive).
Defined.

(** C10: the classifier returns as many frames as it was given, and the
    frame at each index of the output is the frame at that index of the
    input or a native handle wrapping it: no frame is dropped, added or
    moved. *)
Theorem frames_to_gpumemoryview_keeps_positions (frames : list ref) (w : world) :
  ∃ out w',
    frames_to_gpumemoryview frames w = (Ok out, w')
    ∧ length out = length frames
    ∧ ∀ i f, frames !! i = Some f →
        ∃ f', out !! i = Some f' ∧ derived (heap w') f f'.
Proof.
  destruct (frames_to_gpumemoryview_derived frames w)
    as (out & news & Hrun & Hder).
  exists out, (with_heap w (heap w ++ news)).
  split; [done|]. split; [symmetry; by eapply Forall2_length|].
  intros i f Hi. by eapply Forall2_lookup_l in Hder.
Qed.

(** C4, as the code has it: a frame that exposes the interface, native
    handle or foreign object alike, is never returned as it is.  The
    classifier returns a new native handle that wraps the frame and exposes
    the frame's own interface (same pointer, shape, strides and type
    string), so a native handle comes back wrapped a second time. *)
Theorem frames_to_gpumemoryview_rewraps (frames : list ref) (w : world)
    (i : nat) (f : ref) (cai : cuda_array_interface) :
  Forall (λ f, f < length (heap w)) frames →
  frames !! i = Some f →
  heap w !! f ≫= cuda_array_interface_of = Some cai →
  ∃ out w' f',
    frames_to_gpumemoryview frames w = (Ok out, w')
    ∧ out !! i = Some f'
    ∧ f' ≠ f
    ∧ length (heap w) ≤ f'
    ∧ heap w' !! f' = Some (Gpumemoryview f cai)
    ∧ heap w' !! f' ≫= cuda_array_interface_of
      = heap w' !! f ≫= cuda_array_interface_of.
Proof.
  intros Hlive Hi Hcai.
  destruct (frames_to_gpumemoryview_classified frames w Hlive)
    as (out & news & Hrun & Hcls).
  destruct (Forall2_lookup_l _ _ _ _ _ Hcls Hi) as (f' & Hout & Hc).
  assert (Hf : f < length (heap w)).
  { rewrite Forall_forall in Hlive. apply Hlive.
    apply list_elem_of_lookup. eauto. }
  unfold classified in Hc. rewrite Hcai in Hc. destruct Hc as [Hfresh Hobj].
  exists out, (with_heap w (heap w ++ news)), f'. simpl.
  repeat split; try done; [lia|].
  rewrite Hobj. simpl. by rewrite lookup_app_l.
Qed.

Lemma frames_to_gpumemoryview_rewraps_witness :
  Forall (λ f, f < length (heap native_world)) [1]
  ∧ [1] !! 0 = Some 1
  ∧ heap native_world !! 1 ≫= cuda_array_interface_of
    = Some (CAI 0 [4] None "|u1"%string)
  ∧ ∃ out w' f',
      frames_to_gpumemoryview [1] native_world = (Ok out, w')
      ∧ out !! 0 = Some f'
      ∧ f' ≠ 1
      ∧ length (heap native_world) ≤ f'
      ∧ heap w' !! f' = Some (Gpumemoryview 1 (CAI 0 [4] None "|u1"%string))
      ∧ heap w' !! f' ≫= cuda_array_interface_of
        = heap w' !! 1 ≫= cuda_array_interface_of.
Proof.
  assert (Hlive : Forall (λ f, f < length (heap native_world)) [1])
    by (repeat constructor; simpl; lia).
  repeat split; [exact Hlive|].
  exact (frames_to_gpumemoryview_rewraps [1] native_world 0 1
           (CAI 0 [4] None "|u1"%string) Hlive eq_refl eq_refl).
Defined.

(** C4, as the spec states it, fails: frame 1 of [native_world] is a
    native handle, and classifying it returns frame 2, a new handle that
    wraps frame 1. *)
Lemma native_handle_not_returned_unchanged :
  heap native_world !! 1 = Some (Gpumemoryview 0 (CAI 0 [4] None "|u1"%string))
  ∧ frames_to_gpumemoryview [1] native_world
    = (Ok [2],
       with_heap native_world
         (heap native_world
          ++ [Gpumemoryview 1 (CAI 0 [4] None "|u1"%string)]))
  ∧ ¬ (∀ w g obj cai,
         heap w !! g = Some (Gpumemoryview obj cai) →
         ∃ w', frames_to_gpumemoryview [g] w = (Ok [g], w')).
Proof.
  split; [done|]. split; [done|].
  intros H.
  destruct (H native_world 1 0 (CAI 0 [4] None "|u1"%string) eq_refl)
    as [w' Hw'].
  vm_compute in Hw'. discriminate.
Qed.

(** ** Running the built-ins *)

Lemma unpack2_run (a b : ref) w : unpack2 [a; b] w = (Ok (a, b), w).
Proof. done. Qed.


Lemma getattr_cuda_array_interface_run f cai w :
  heap w !! f ≫= cuda_array_interface_of = Some cai →
  getattr_cuda_array_interface f w = (Ok cai, w).
Proof. intros E. unfold getattr_cuda_array_interface. unfold_M. by rewrite E. Qed.

Lemma getattr_ptr_native f obj cai w :
  heap w !! f = Some (Gpumemoryview obj cai) →
  getattr_ptr f w = (Ok (cai_data cai), w).
Proof. intros E. unfold getattr_ptr. unfold_M. by rewrite E. Qed.

Lemma memoryview_run obj b w :
  heap w !! obj ≫= host_bytes_of = Some b →
  memoryview obj w
  = (Ok (length (heap w)), with_heap w (heap w ++ [PyMemoryview obj b])).
Proof. intros E. unfold memoryview. unfold_M. by rewrite E. Qed.

Lemma getitem_run {A} (t : list A) i x w :
  t !! i = Some x → getitem t i w = (Ok x, w).
Proof. intros E. unfold getitem. by rewrite E. Qed.

(** The world after [rmm.DeviceBuffer.to_device] of the bytes [b]. *)
Lemma rmm_DeviceBuffer_to_device_run f b w :
  heap w !! f ≫= host_bytes_of = Some b →
  rmm_DeviceBuffer_to_device f w
  = (Ok (length (heap w)),
     World (heap w ++ [DeviceBuffer (length (dmem w)) (length b)])
           (dmem w ++ b)
           (trace w ++ [EvAlloc (length (dmem w)) (length b);
                        EvMemcpyHtoD (length (dmem w)) (length b)])
           (log w)).
Proof.
  intros E. unfold rmm_DeviceBuffer_to_device. unfold_M. rewrite E. simpl.
  by rewrite <- app_assoc.
Qed.

(** The world after [memoryview(rmm.DeviceBuffer(ptr, size).copy_to_host())]
    when the [size] bytes at [ptr] are [b]. *)
Lemma copy_out_run ptr size b w :
  device_read (dmem w) ptr size = Some b →
  (buf ← rmm_DeviceBuffer ptr size;
   host ← copy_to_host buf;
   memoryview host) w
  = (Ok (S (S (length (heap w)))),
     World (heap w ++ [DeviceBuffer (length (dmem w)) size; PyBytes b;
                       PyMemoryview (S (length (heap w))) b])
           (dmem w ++ b)
           (trace w ++ [EvAlloc (length (dmem w)) size;
                        EvMemcpyDtoD ptr (length (dmem w)) size;
                        EvMemcpyDtoH (length (dmem w)) size])
           (log w)).
Proof.
  intros E. pose proof (device_read_length _ _ _ _ E) as Hlen.
  unfold rmm_DeviceBuffer, copy_to_host, memoryview. unfold_M.
  rewrite E. simpl.
  rewrite lookup_app_r, Nat.sub_diag by done. simpl.
  subst size. rewrite device_read_new. simpl.
  rewrite lookup_app_r; rewrite length_app; simpl; [|lia].
  replace (length (heap w) + 1 - (length (heap w) + 1)) with 0 by lia.
  simpl. rewrite !length_app, <- !app_assoc. simpl.
  by replace (length (heap w) + 1 + 1) with (S (S (length (heap w)))) by lia;
     replace (length (heap w) + 1) with (S (length (heap w))) by lia.
Qed.

(** ** Properties of the hooks, for any object layer *)
Section hooks.
Context {Header Column DataFrame : Type}.
Context `{ColumnLayer : !Serializable Header Column}.
Context `{DataFrameLayer : !Serializable Header DataFrame}.

Lemma cuda_serialize_run (x : DataFrame + Column) (w : world) :
  cuda_serialize x w
  = match x_serialize x w with
    | (Ok (header, frames), w') => (Ok (header, frames), w')
    | (Raise e, w') => (Raise e, log_errors_exit e w')
    end.
Proof.
  unfold cuda_serialize, cuda_serialize_body, log_errors.
  unfold mbind, M_bind.
  by destruct (x_serialize x w) as [[[header frames]|e] w'].
Qed.

(** C6: device-path serialize returns the header and the buffers of
    [x.serialize()] as they are, in the same order, and leaves the world as
    [x.serialize()] left it: nothing is copied or modified.  If
    [x.serialize()] raises, the hook raises the same exception, after
    [log_errors] has dealt with it. *)
Theorem cuda_serialize_hands_over (x : DataFrame + Column) (w : world) :
  cuda_serialize x w
  = match x_serialize x w with
    | (Ok (header, frames), w') => (Ok (header, frames), w')
    | (Raise e, w') => (Raise e, log_errors_exit e w')
    end.
Proof. apply cuda_serialize_run. Qed.

Lemma dask_serialize_body_Ok (x : DataFrame + Column) w header frames w' :
  dask_serialize_body x w = (Ok (header, frames), w') → length frames = 2.
Proof.
  unfold dask_serialize_body. intros H.
  apply bind_inv_Ok in H as ([hd fr] & w1 & _ & H).
  apply bind_inv_Ok in H as ([metadata gpudata] & w2 & _ & H).
  do 9 (apply bind_inv_Ok in H as (? & ? & _ & H)).
  unfold mret, M_ret in H. by injection H as <- <- <-.
Qed.

Lemma cuda_deserialize_wrong_count {T} (k : list ref → M T) frames w :
  length frames ≠ 2 →
  log_errors (frames ← frames_to_gpumemoryview frames;
              assert (bool_decide (length frames = 2));;
              k frames) w
  = (Raise AssertionError,
     logger_exception AssertionError (frames_to_gpumemoryview frames w).2).
Proof.
  intros Hlen.
  destruct (frames_to_gpumemoryview_total frames w)
    as (out & news & Hrun & Hout).
  apply log_errors_Raise; [done|]. rewrite Hrun. simpl.
  erewrite bind_Ok; [|exact Hrun].
  apply bind_Raise, assert_false, bool_decide_eq_false_2. congruence.
Qed.

Lemma dask_deserialize_wrong_count {T} (k : M T) (frames : list ref) w :
  length frames ≠ 2 →
  log_errors (assert (bool_decide (length frames = 2));; k) w
  = (Raise AssertionError, logger_exception AssertionError w).
Proof.
  intros Hlen. apply log_errors_Raise; [done|].
  by apply bind_Raise, assert_false, bool_decide_eq_false_2.
Qed.

(** C2: when the object layer yields two buffers, serialize returns
    exactly two buffers on the device path, and on the host path it does
    so in any case; deserialize, on either path and for either class,
    given a frame list whose length is not 2 raises [AssertionError]: on
    the device path in the world the classifier left, on the host path in
    the world it was called in, so the object's [deserialize] has not run. *)
Theorem two_buffers_or_AssertionError (x : DataFrame + Column)
    (header : Header) (frames : list ref) (w : world) :
  (∀ hd fr w', x_serialize x w = (Ok (hd, fr), w') → length fr = 2) →
  length frames ≠ 2 →
  (∀ hd fr w', cuda_serialize x w = (Ok (hd, fr), w') → length fr = 2)
  ∧ (∀ hd fr w', dask_serialize x w = (Ok (hd, fr), w') → length fr = 2)
  ∧ cuda_deserialize_DataFrame (DataFrame:=DataFrame) header frames w
    = (Raise AssertionError,
       logger_exception AssertionError (frames_to_gpumemoryview frames w).2)
  ∧ cuda_deserialize_Column (Column:=Column) header frames w
    = (Raise AssertionError,
       logger_exception AssertionError (frames_to_gpumemoryview frames w).2)
  ∧ dask_deserialize_DataFrame (DataFrame:=DataFrame) header frames w
    = (Raise AssertionError, logger_exception AssertionError w)
  ∧ dask_deserialize_Column (Column:=Column) header frames w
    = (Raise AssertionError, logger_exception AssertionError w).
Proof.
  intros Hobj Hlen. repeat split.
  - intros hd fr w'. rewrite cuda_serialize_run.
    destruct (x_serialize x w) as [[[hd' fr']|e] w1]; [|discriminate].
    intros [= <- <- <-]. exact (Hobj _ _ _ eq_refl).
  - intros hd fr w' E.
    apply log_errors_Ok_inv in E. exact (dask_serialize_body_Ok _ _ _ _ _ E).
  - by apply cuda_deserialize_wrong_count.
  - by apply cuda_deserialize_wrong_count.
  - by apply dask_deserialize_wrong_count.
  - by apply dask_deserialize_wrong_count.
Qed.

Lemma log_errors_bind_Ok {A B} (m : M A) (f : A → M B) w a w1 :
  m w = (Ok a, w1) → log_errors (m ≫= f) w = log_errors (f a) w1.
Proof. intros E. unfold log_errors. by erewrite bind_Ok. Qed.

Lemma strides_check (cai : cuda_array_interface) :
  bool_decide (cai_strides cai = None)
  || bool_decide (cai_strides cai = Some [1%Z]) = true
  ↔ cai_strides cai = None ∨ cai_strides cai = Some [1%Z].
Proof. by rewrite orb_true_iff, !bool_decide_eq_true. Qed.

(** C3: when the data buffer that [x.serialize()] returned has an interface
    whose shape is not of rank 1, or whose strides are neither [None] nor
    [(1,)], or whose type string is not ["|u1"], host-path serialize raises
    [AssertionError]; the world it leaves is the world [x.serialize()]
    left plus the log record, so no device-to-host copy (no allocation or
    copy at all) was made. *)
Theorem dask_serialize_rejects (x : DataFrame + Column) (w w1 : world)
    (header : Header) (metadata gpudata : ref) (cai : cuda_array_interface) :
  x_serialize x w = (Ok (header, [metadata; gpudata]), w1) →
  heap w1 !! gpudata ≫= cuda_array_interface_of = Some cai →
  length (cai_shape cai) ≠ 1
  ∨ (cai_strides cai ≠ None ∧ cai_strides cai ≠ Some [1%Z])
  ∨ cai_typestr cai ≠ "|u1"%string →
  dask_serialize x w = (Raise AssertionError, logger_exception AssertionError w1)
  ∧ dmem (logger_exception AssertionError w1) = dmem w1
  ∧ trace (logger_exception AssertionError w1) = trace w1.
Proof.
  intros Hser Hcai Hbad. split; [|done].
  apply log_errors_Raise; [done|]. unfold dask_serialize_body.
  erewrite bind_Ok; [|exact Hser]. simpl.
  erewrite bind_Ok; [|apply unpack2_run]. simpl.
  erewrite bind_Ok; [|by apply getattr_cuda_array_interface_run].
  destruct (decide (length (cai_shape cai) = 1)) as [H1|H1]; cycle 1.
  { by apply bind_Raise, assert_false, bool_decide_eq_false_2. }
  erewrite bind_Ok; [|by apply assert_true, bool_decide_eq_true_2].
  destruct (bool_decide (cai_strides cai = None)
            || bool_decide (cai_strides cai = Some [1%Z])) eqn:H2; cycle 1.
  { by apply bind_Raise, assert_false. }
  erewrite bind_Ok; [|by apply assert_true].
  apply strides_check in H2.
  apply bind_Raise, assert_false, bool_decide_eq_false_2.
  destruct Hbad as [?|[[? ?]|?]]; [done| |done].
  by destruct H2.
Qed.

Lemma dask_deserialize_run {T} (k : list ref → M T) (f0 f1 : ref) b w :
  heap w !! f1 ≫= host_bytes_of = Some b →
  log_errors
    (assert (bool_decide (length [f0; f1] = 2));;
     frame0 ← getitem [f0; f1] 0;
     frame1 ← getitem [f0; f1] 1;
     buf ← rmm_DeviceBuffer_to_device frame1;
     gpudata ← plc_gpumemoryview buf;
     k [frame0; gpudata]) w
  = log_errors (k [f0; S (length (heap w))]) (copied_to_device w b).
Proof.
  intros Hb.
  erewrite log_errors_bind_Ok; [|by apply assert_true].
  erewrite log_errors_bind_Ok; [|by apply getitem_run].
  erewrite log_errors_bind_Ok; [|by apply getitem_run].
  erewrite log_errors_bind_Ok; [|by apply rmm_DeviceBuffer_to_device_run].
  erewrite log_errors_bind_Ok.
  2:{ apply plc_gpumemoryview_run. simpl.
      by rewrite lookup_app_r, Nat.sub_diag. }
  unfold with_heap, copied_to_device. simpl.
  rewrite <- app_assoc, length_app. simpl.
  by replace (length (heap w) + 1) with (S (length (heap w))) by lia.
Qed.

(** C7: host-path deserialize of a two-frame list whose second frame is a
    host buffer holding the bytes [b] calls the object's [deserialize], for
    either class, with the first frame as it is and, in place of the
    second, a native handle on a newly allocated device buffer to which [b]
    was copied: the call happens in the world [copied_to_device w b]. *)
Theorem dask_deserialize_copies_second_frame (header : Header)
    (frame0 frame1 : ref) (b : list byte) (w : world) :
  heap w !! frame1 ≫= host_bytes_of = Some b →
  dask_deserialize_DataFrame (DataFrame:=DataFrame) header [frame0; frame1] w
  = log_errors (deserialize (T:=DataFrame) header
                  [frame0; S (length (heap w))]) (copied_to_device w b)
  ∧ dask_deserialize_Column (Column:=Column) header [frame0; frame1] w
    = log_errors (deserialize (T:=Column) header
                    [frame0; S (length (heap w))]) (copied_to_device w b)
  ∧ heap (copied_to_device w b) !! S (length (heap w))
    = Some (Gpumemoryview (length (heap w))
              (CAI (length (dmem w)) [length b] None "|u1"%string))
  ∧ device_read (dmem (copied_to_device w b)) (length (dmem w)) (length b)
    = Some b.
Proof.
  intros Hb. repeat split.
  - by apply (dask_deserialize_run (deserialize header)).
  - by apply (dask_deserialize_run (deserialize header)).
  - simpl. rewrite lookup_app_r by lia.
    by replace (S (length (heap w)) - length (heap w)) with 1 by lia.
  - apply device_read_new.
Qed.






Lemma copy_out_then {B} (k : ref → M B) ptr size b w :
  device_read (dmem w) ptr size = Some b →
  (buf ← rmm_DeviceBuffer ptr size;
   host ← copy_to_host buf;
   gpudata_on_host ← memoryview host;
   k gpudata_on_host) w
  = k (S (S (length (heap w))))
      (World (heap w ++ [DeviceBuffer (length (dmem w)) size; PyBytes b;
                         PyMemoryview (S (length (heap w))) b])
             (dmem w ++ b)
             (trace w ++ [EvAlloc (length (dmem w)) size;
                          EvMemcpyDtoD ptr (length (dmem w)) size;
                          EvMemcpyDtoH (length (dmem w)) size])
             (log w)).
Proof.
  intros E. pose proof (copy_out_run ptr size b w E) as H.
  unfold mbind, M_bind in H |- *.
  destruct (rmm_DeviceBuffer ptr size w) as [[buf|e] w1]; [|discriminate].
  destruct (copy_to_host buf w1) as [[host|e] w2]; [|discriminate].
  destruct (memoryview host w2) as [[g|e] w3]; [|discriminate].
  by injection H as -> ->.
Qed.

Lemma dask_serialize_run (x : DataFrame + Column) (w w1 : world)
    (header : Header) (metadata gpudata obj : ref)
    (cai : cuda_array_interface) (n : nat) (b : list byte) :
  x_serialize x w = (Ok (header, [metadata; gpudata]), w1) →
  heap w1 !! gpudata = Some (Gpumemoryview obj cai) →
  contiguous_bytes cai →
  cai_shape cai !! 0 = Some n →
  device_read (dmem w1) (cai_data cai) n = Some b →
  dask_serialize x w
  = (Ok (header, [metadata; S (S (length (heap w1)))]),
     copied_to_host w1 (cai_data cai) b).
Proof.
  intros Hser Hobj (Hrank & Hstrides & Htype) Hn Hread.
  pose proof (device_read_length _ _ _ _ Hread) as Hlen.
  apply log_errors_Ok. unfold dask_serialize_body.
  erewrite bind_Ok; [|exact Hser]. simpl.
  erewrite bind_Ok; [|apply unpack2_run]. simpl.
  erewrite bind_Ok;
    [|apply getattr_cuda_array_interface_run; by rewrite Hobj].
  erewrite bind_Ok; [|by apply assert_true, bool_decide_eq_true_2].
  erewrite bind_Ok; [|by apply assert_true, strides_check].
  erewrite bind_Ok; [|by apply assert_true, bool_decide_eq_true_2].
  erewrite bind_Ok; [|by apply getitem_run].
  erewrite bind_Ok; [|by eapply getattr_ptr_native].
  erewrite copy_out_then; [|exact Hread]. by subst n.
Qed.

Lemma copied_to_host_bytes w ptr b :
  heap (copied_to_host w ptr b) !! S (S (length (heap w))) ≫= host_bytes_of
  = Some b.
Proof.
  simpl. rewrite lookup_app_r by lia.
  by replace (S (S (length (heap w))) - length (heap w)) with 2 by lia.
Qed.

Lemma copied_to_device_handle w b :
  heap (copied_to_device w b) !! S (length (heap w))
  = Some (Gpumemoryview (length (heap w))
            (CAI (length (dmem w)) [length b] None "|u1"%string)).
Proof.
  simpl. rewrite lookup_app_r by lia.
  by replace (S (length (heap w)) - length (heap w)) with 1 by lia.
Qed.

Lemma cuda_deserialize_run {T} (k : list ref → M T) (metadata gpudata : ref)
    cai w :
  heap w !! metadata ≫= cuda_array_interface_of = None →
  heap w !! gpudata ≫= cuda_array_interface_of = Some cai →
  log_errors (frames ← frames_to_gpumemoryview [metadata; gpudata];
              assert (bool_decide (length frames = 2));;
              k frames) w
  = log_errors (k [metadata; length (heap w)])
      (with_heap w (heap w ++ [Gpumemoryview gpudata cai])).
Proof.
  intros Hm Hg.
  erewrite log_errors_bind_Ok.
  2:{ rewrite frames_to_gpumemoryview_cons, Hm.
      rewrite frames_to_gpumemoryview_cons, Hg.
      by rewrite frames_to_gpumemoryview_nil. }
  by erewrite log_errors_bind_Ok; [|by apply assert_true].
Qed.

(** C9: when the data buffer that [x.serialize()] returned is a native
    handle whose interface satisfies the host path's precondition, with
    [shape[0] = n], and the [n] bytes it views are [b], then host-path
    serialize returns a host buffer holding exactly [b], after one
    device-to-host copy of [n] bytes; and host-path deserialize of the
    returned frames, for either class, hands the object's [deserialize] a
    native handle of shape [(n,)] on a new device buffer whose [n] bytes
    are exactly [b], while the [n] bytes of the original buffer are still
    [b]. *)
Theorem host_path_byte_exact (x : DataFrame + Column) (w w1 : world)
    (header hd : Header) (metadata gpudata obj : ref)
    (cai : cuda_array_interface) (n : nat) (b : list byte) :
  x_serialize x w = (Ok (header, [metadata; gpudata]), w1) →
  heap w1 !! gpudata = Some (Gpumemoryview obj cai) →
  contiguous_bytes cai →
  cai_shape cai !! 0 = Some n →
  device_read (dmem w1) (cai_data cai) n = Some b →
  ∃ host w2,
    dask_serialize x w = (Ok (header, [metadata; host]), w2)
    ∧ heap w2 !! host ≫= host_bytes_of = Some b
    ∧ length b = n
    ∧ trace w2 = trace w1 ++ [EvAlloc (length (dmem w1)) n;
                              EvMemcpyDtoD (cai_data cai) (length (dmem w1)) n;
                              EvMemcpyDtoH (length (dmem w1)) n]
    ∧ dask_deserialize_DataFrame (DataFrame:=DataFrame) hd [metadata; host] w2
      = log_errors (deserialize (T:=DataFrame) hd
                      [metadata; S (length (heap w2))]) (copied_to_device w2 b)
    ∧ dask_deserialize_Column (Column:=Column) hd [metadata; host] w2
      = log_errors (deserialize (T:=Column) hd
                      [metadata; S (length (heap w2))]) (copied_to_device w2 b)
    ∧ heap (copied_to_device w2 b) !! S (length (heap w2))
      = Some (Gpumemoryview (length (heap w2))
                (CAI (length (dmem w2)) [n] None "|u1"%string))
    ∧ device_read (dmem (copied_to_device w2 b)) (length (dmem w2)) n = Some b
    ∧ device_read (dmem (copied_to_device w2 b)) (cai_data cai) n = Some b.
Proof.
  intros Hser Hobj Hcontig Hn Hread.
  pose proof (device_read_length _ _ _ _ Hread) as Hlen.
  exists (S (S (length (heap w1)))), (copied_to_host w1 (cai_data cai) b).
  split; [by eapply dask_serialize_run|].
  split; [apply copied_to_host_bytes|]. split; [done|].
  split; [by subst n|].
  split; [apply (dask_deserialize_run (deserialize hd)),
            copied_to_host_bytes|].
  split; [apply (dask_deserialize_run (deserialize hd)),
            copied_to_host_bytes|].
  subst n. split; [apply copied_to_device_handle|].
  split; [apply device_read_new|].
  by do 2 apply device_read_app.
Qed.
End hooks.

(** ** The modelled object layer *)

Lemma lookup_app_new {A} (h k : list A) i : (h ++ k) !! (length h + i) = k !! i.
Proof.
  rewrite lookup_app_r by lia. f_equal. lia.
Qed.

Section packed.
Context {Header T : Type} `{Packing : !Codec Header T}.

Lemma packed_serialize_run (x : T) w header m d :
  pack x = (header, m, d) →
  packed_serialize x w
  = (Ok (header, [S (length (heap w)); S (S (S (length (heap w))))]),
     packed_world w m d).
Proof.
  intros E. unfold packed_serialize. rewrite E.
  erewrite bind_Ok; [|reflexivity].
  erewrite bind_Ok.
  2:{ apply memoryview_run. simpl. by rewrite lookup_app_r, Nat.sub_diag. }
  erewrite bind_Ok; [|reflexivity].
  erewrite bind_Ok; [|reflexivity].
  erewrite bind_Ok.
  2:{ apply plc_gpumemoryview_run. simpl.
      by rewrite lookup_app_r, Nat.sub_diag. }
  unfold packed_world, with_heap. simpl.
  rewrite !length_app, <- !app_assoc. simpl.
  replace (length (heap w) + 1 + 1 + 1) with (S (S (S (length (heap w)))))
    by lia.
  replace (length (heap w) + 1 + 1) with (S (S (length (heap w)))) by lia.
  by replace (length (heap w) + 1) with (S (length (heap w))) by lia.
Qed.

Lemma packed_deserialize_run header (metadata gpudata obj : ref) w mb cai n d :
  heap w !! metadata ≫= host_bytes_of = Some mb →
  heap w !! gpudata = Some (Gpumemoryview obj cai) →
  cai_shape cai !! 0 = Some n →
  device_read (dmem w) (cai_data cai) n = Some d →
  packed_deserialize header [metadata; gpudata] w = (unpack header mb d, w).
Proof.
  intros Hm Hg Hn Hread. unfold packed_deserialize.
  erewrite bind_Ok; [|apply unpack2_run]. simpl.
  erewrite bind_Ok; [|reflexivity]. simpl.
  rewrite Hm, Hg.
  erewrite bind_Ok; [|by apply getitem_run].
  erewrite bind_Ok; [|reflexivity]. simpl.
  by rewrite Hread.
Qed.
Lemma packed_world_metadata w m d :
  heap (packed_world w m d) !! S (length (heap w)) = Some (PyMemoryview (length (heap w)) m).
Proof.
  simpl. replace (S (length (heap w))) with (length (heap w) + 1) by lia.
  by rewrite lookup_app_new.
Qed.

Lemma packed_world_gpudata w m d :
  heap (packed_world w m d) !! S (S (S (length (heap w))))
  = Some (Gpumemoryview (S (S (length (heap w))))
            (CAI (length (dmem w)) [length d] None "|u1"%string)).
Proof.
  simpl.
  replace (S (S (S (length (heap w))))) with (length (heap w) + 3) by lia.
  by rewrite lookup_app_new.
Qed.

Lemma packed_world_length w m d :
  length (heap (packed_world w m d)) = length (heap w) + 4.
Proof. simpl. by rewrite length_app. Qed.

(** Device path: the hook body after [packed_serialize]. *)
Lemma packed_device_round_trip (x : T) w header m d :
  unpack header m d = Ok x →
  ∃ w2,
    log_errors
      (frames ← frames_to_gpumemoryview
                  [S (length (heap w)); S (S (S (length (heap w))))];
       assert (bool_decide (length frames = 2));;
       packed_deserialize header frames) (packed_world w m d)
    = (Ok x, w2).
Proof.
  intros Hx. eexists.
  erewrite cuda_deserialize_run; cycle 1.
  { by rewrite packed_world_metadata. }
  { by rewrite packed_world_gpudata. }
  apply log_errors_Ok.
  erewrite (packed_deserialize_run _ _ _ _ _ m _ (length d) d); cycle 1.
  { unfold with_heap at 1. cbn [heap].
    rewrite lookup_app_l by (rewrite packed_world_length; lia).
    by rewrite packed_world_metadata. }
  { unfold with_heap at 1. cbn [heap].
    by rewrite lookup_app_r, Nat.sub_diag. }
  { done. }
  { apply device_read_new. }
  by rewrite Hx.
Qed.

(** Host path: the deserialize hook body after the serialize hook. *)
Lemma packed_host_round_trip (x : T) w header m d :
  unpack header m d = Ok x →
  ∃ w2,
    log_errors
      (assert (bool_decide
                 (length [S (length (heap w));
                          S (S (length (heap (packed_world w m d))))] = 2));;
       frame0 ← getitem [S (length (heap w));
                         S (S (length (heap (packed_world w m d))))] 0;
       frame1 ← getitem [S (length (heap w));
                         S (S (length (heap (packed_world w m d))))] 1;
       buf ← rmm_DeviceBuffer_to_device frame1;
       gpudata ← plc_gpumemoryview buf;
       packed_deserialize header [frame0; gpudata])
      (copied_to_host (packed_world w m d) (length (dmem w)) d)
    = (Ok x, w2).
Proof.
  intros Hx. eexists.
  erewrite (dask_deserialize_run (packed_deserialize header));
    [|apply copied_to_host_bytes].
  apply log_errors_Ok.
  erewrite (packed_deserialize_run _ _ _ _ _ m _ (length d) d); cycle 1.
  { unfold copied_to_device, copied_to_host at 1. cbn [heap].
    rewrite !lookup_app_l; [by rewrite packed_world_metadata|..];
      rewrite ?length_app, packed_world_length; lia. }
  { apply copied_to_device_handle. }
  { done. }
  { apply device_read_new. }
  by rewrite Hx.
Qed.

Lemma left_inverse_unpack :
  left_inverse Header T (Layer:=packed_layer) →
  ∀ (x : T) header m d, pack x = (header, m, d) → unpack header m d = Ok x.
Proof.
  intros Hinv x header m d E.
  generalize empty_world. intros w.
  destruct (Hinv x w) as (header' & frames & w1 & w2 & Hs & Hd).
  simpl in Hs. rewrite (packed_serialize_run _ _ _ _ _ E) in Hs.
  injection Hs as <- <- <-. simpl in Hd.
  rewrite (packed_deserialize_run header _ _ _ _ m _ (length d) d
             ltac:(by rewrite (packed_world_metadata w))
             (packed_world_gpudata w m d)
             eq_refl (device_read_new (dmem w) d)) in Hd.
  by injection Hd.
Qed.
Lemma unpack_left_inverse :
  (∀ (x : T) header m d, pack x = (header, m, d) → unpack header m d = Ok x) →
  left_inverse Header T (Layer:=packed_layer).
Proof.
  intros Hinv x w. destruct (pack x) as [[header m] d] eqn:E.
  exists header, [S (length (heap w)); S (S (S (length (heap w))))],
    (packed_world w m d), (packed_world w m d).
  split; [by apply packed_serialize_run|]. simpl.
  rewrite (packed_deserialize_run header _ _ _ _ m _ (length d) d
             ltac:(by rewrite (packed_world_metadata w))
             (packed_world_gpudata w m d)
             eq_refl (device_read_new (dmem w) d)).
  by rewrite (Hinv x header m d E).
Qed.
End packed.

(** ** Round trips through the hooks *)
Section round_trip.
Context {Header Column DataFrame : Type}.
Context `{ColumnPacking : !Codec Header Column}.
Context `{DataFramePacking : !Codec Header DataFrame}.
#[local] Existing Instance packed_layer.

Lemma device_round_trip_DataFrame (df : DataFrame) w :
  (∀ header m d, pack df = (header, m, d) → unpack header m d = Ok df) →
  ∃ header frames w1 w2,
    cuda_serialize (Column:=Column) (inl df) w = (Ok (header, frames), w1)
    ∧ cuda_deserialize_DataFrame header frames w1 = (Ok df, w2).
Proof.
  intros Hinv. destruct (pack df) as [[header m] d] eqn:E.
  destruct (packed_device_round_trip df w header m d (Hinv _ _ _ eq_refl))
    as [w2 Hde].
  exists header, [S (length (heap w)); S (S (S (length (heap w))))],
    (packed_world w m d), w2.
  split; [|exact Hde].
  rewrite cuda_serialize_run. simpl.
  by rewrite (packed_serialize_run df w header m d E).
Qed.

Lemma device_round_trip_Column (col : Column) w :
  (∀ header m d, pack col = (header, m, d) → unpack header m d = Ok col) →
  ∃ header frames w1 w2,
    cuda_serialize (DataFrame:=DataFrame) (inr col) w
    = (Ok (header, frames), w1)
    ∧ cuda_deserialize_Column header frames w1 = (Ok col, w2).
Proof.
  intros Hinv. destruct (pack col) as [[header m] d] eqn:E.
  destruct (packed_device_round_trip col w header m d (Hinv _ _ _ eq_refl))
    as [w2 Hde].
  exists header, [S (length (heap w)); S (S (S (length (heap w))))],
    (packed_world w m d), w2.
  split; [|exact Hde].
  rewrite cuda_serialize_run. simpl.
  by rewrite (packed_serialize_run col w header m d E).
Qed.

Lemma packed_dask_serialize_run (x : DataFrame + Column) w header m d :
  x_serialize x w
  = (Ok (header, [S (length (heap w)); S (S (S (length (heap w))))]),
     packed_world w m d) →
  dask_serialize x w
  = (Ok (header, [S (length (heap w));
                  S (S (length (heap (packed_world w m d))))]),
     copied_to_host (packed_world w m d) (length (dmem w)) d).
Proof.
  intros Hser.
  apply (dask_serialize_run x w (packed_world w m d) header _ _ _
           (CAI (length (dmem w)) [length d] None "|u1"%string)
           (length d) d Hser (packed_world_gpudata w m d)).
  - split; [done|]. split; [by left|done].
  - done.
  - apply device_read_new.
Qed.

Lemma host_round_trip_DataFrame (df : DataFrame) w :
  (∀ header m d, pack df = (header, m, d) → unpack header m d = Ok df) →
  ∃ header frames w1 w2,
    dask_serialize (Column:=Column) (inl df) w = (Ok (header, frames), w1)
    ∧ dask_deserialize_DataFrame header frames w1 = (Ok df, w2).
Proof.
  intros Hinv. destruct (pack df) as [[header m] d] eqn:E.
  destruct (packed_host_round_trip df w header m d (Hinv _ _ _ eq_refl))
    as [w2 Hde].
  eexists header, _, _, w2. split; [|exact Hde].
  apply packed_dask_serialize_run. simpl.
  by rewrite (packed_serialize_run df w header m d E).
Qed.

Lemma host_round_trip_Column (col : Column) w :
  (∀ header m d, pack col = (header, m, d) → unpack header m d = Ok col) →
  ∃ header frames w1 w2,
    dask_serialize (DataFrame:=DataFrame) (inr col) w
    = (Ok (header, frames), w1)
    ∧ dask_deserialize_Column header frames w1 = (Ok col, w2).
Proof.
  intros Hinv. destruct (pack col) as [[header m] d] eqn:E.
  destruct (packed_host_round_trip col w header m d (Hinv _ _ _ eq_refl))
    as [w2 Hde].
  eexists header, _, _, w2. split; [|exact Hde].
  apply packed_dask_serialize_run. simpl.
  by rewrite (packed_serialize_run col w header m d E).
Qed.

(** C1: when the object layer's [deserialize] is a left inverse of its
    [serialize], for Column and for DataFrame, then in every world and for
    every object, device-path deserialize of what device-path serialize
    returned gives back the object, and host-path deserialize of what
    host-path serialize returned gives back the object. *)
Theorem round_trip_identity (w : world) :
  left_inverse Header Column →
  left_inverse Header DataFrame →
  (∀ df : DataFrame, ∃ header frames w1 w2,
      cuda_serialize (Column:=Column) (inl df) w = (Ok (header, frames), w1)
      ∧ cuda_deserialize_DataFrame header frames w1 = (Ok df, w2))
  ∧ (∀ col : Column, ∃ header frames w1 w2,
      cuda_serialize (DataFrame:=DataFrame) (inr col) w
      = (Ok (header, frames), w1)
      ∧ cuda_deserialize_Column header frames w1 = (Ok col, w2))
  ∧ (∀ df : DataFrame, ∃ header frames w1 w2,
      dask_serialize (Column:=Column) (inl df) w = (Ok (header, frames), w1)
      ∧ dask_deserialize_DataFrame header frames w1 = (Ok df, w2))
  ∧ (∀ col : Column, ∃ header frames w1 w2,
      dask_serialize (DataFrame:=DataFrame) (inr col) w
      = (Ok (header, frames), w1)
      ∧ dask_deserialize_Column header frames w1 = (Ok col, w2)).
Proof.
  intros Hcol Hdf.
  pose proof (left_inverse_unpack Hcol) as Ucol.
  pose proof (left_inverse_unpack Hdf) as Udf.
  split; [|split; [|split]].
  - intros df. apply device_round_trip_DataFrame, Udf.
  - intros col. apply device_round_trip_Column, Ucol.
  - intros df. apply host_round_trip_DataFrame, Udf.
  - intros col. apply host_round_trip_Column, Ucol.
Qed.
End round_trip.

(** ** The sample objects *)

Lemma restore_validity (v : option byte) :
  restore (validity v) (default x00 v) = v.
Proof. by destruct v. Qed.

Lemma restore_column (c : sample_column) :
  zip_with restore (validity <$> c) (default x00 <$> c) = c.
Proof.
  induction c as [|v c IH]; [done|].
  csimpl. by rewrite restore_validity, IH.
Qed.

Lemma unpack_pack_column (c : sample_column) header m d :
  pack_column c = (header, m, d) → unpack_column header m d = Ok c.
Proof.
  intros [= <- <- <-]. unfold unpack_column.
  rewrite bool_decide_eq_true_2 by (by rewrite !length_fmap).
  by rewrite restore_column.
Qed.

Lemma unpack_pack_frame (df : sample_frame) header m d :
  pack_frame df = (header, m, d) → unpack_frame header m d = Ok df.
Proof.
  intros [= <- <- <-]. induction df as [|c df IH]; [done|].
  csimpl. rewrite bool_decide_eq_true_2
    by (rewrite !length_app, !length_fmap; lia).
  rewrite !drop_app_length', !take_app_length' by (by rewrite length_fmap).
  by rewrite IH, restore_column.
Qed.

Lemma column_layer_left_inverse :
  left_inverse (list nat) sample_column (Layer:=column_layer).
Proof. apply (unpack_left_inverse (Packing:=column_codec)), unpack_pack_column. Qed.

Lemma frame_layer_left_inverse :
  left_inverse (list nat) sample_frame (Layer:=frame_layer).
Proof. apply (unpack_left_inverse (Packing:=frame_codec)), unpack_pack_frame. Qed.

(** A column of five integers with one null goes through the device path
    unchanged. *)
Example five_with_null_device_path :
  ∃ header frames w1 w2,
    cuda_serialize (ColumnLayer:=column_layer) (DataFrameLayer:=frame_layer)
      (inr five_with_null) empty_world = (Ok (header, frames), w1)
    ∧ cuda_deserialize_Column (ColumnLayer:=column_layer) header frames w1
      = (Ok five_with_null, w2).
Proof.
  apply (device_round_trip_Column (ColumnPacking:=column_codec)
           (DataFramePacking:=frame_codec)), unpack_pack_column.
Qed.

(** A frame of two columns goes through the host path unchanged. *)
Example two_columns_host_path :
  ∃ header frames w1 w2,
    dask_serialize (ColumnLayer:=column_layer) (DataFrameLayer:=frame_layer)
      (inl two_columns) empty_world = (Ok (header, frames), w1)
    ∧ dask_deserialize_DataFrame (DataFrameLayer:=frame_layer) header frames w1
      = (Ok two_columns, w2).
Proof.
  apply (host_round_trip_DataFrame (ColumnPacking:=column_codec)
           (DataFramePacking:=frame_codec)), unpack_pack_frame.
Qed.

(** ** The theorems at the sample objects *)

Lemma round_trip_identity_witness :
  left_inverse (list nat) sample_column (Layer:=column_layer)
  ∧ left_inverse (list nat) sample_frame (Layer:=frame_layer)
  ∧ (∀ df : sample_frame, ∃ header frames w1 w2,
      cuda_serialize (ColumnLayer:=column_layer) (DataFrameLayer:=frame_layer)
        (inl df) empty_world = (Ok (header, frames), w1)
      ∧ cuda_deserialize_DataFrame (DataFrameLayer:=frame_layer)
          header frames w1 = (Ok df, w2))
  ∧ (∀ col : sample_column, ∃ header frames w1 w2,
      cuda_serialize (ColumnLayer:=column_layer) (DataFrameLayer:=frame_layer)
        (inr col) empty_world = (Ok (header, frames), w1)
      ∧ cuda_deserialize_Column (ColumnLayer:=column_layer)
          header frames w1 = (Ok col, w2))
  ∧ (∀ df : sample_frame, ∃ header frames w1 w2,
      dask_serialize (ColumnLayer:=column_layer) (DataFrameLayer:=frame_layer)
        (inl df) empty_world = (Ok (header, frames), w1)
      ∧ dask_deserialize_DataFrame (DataFrameLayer:=frame_layer)
          header frames w1 = (Ok df, w2))
  ∧ (∀ col : sample_column, ∃ header frames w1 w2,
      dask_serialize (ColumnLayer:=column_layer) (DataFrameLayer:=frame_layer)
        (inr col) empty_world = (Ok (header, frames), w1)
      ∧ dask_deserialize_Column (ColumnLayer:=column_layer)
          header frames w1 = (Ok col, w2)).
Proof.
  split; [exact column_layer_left_inverse|].
  split; [exact frame_layer_left_inverse|].
  exact (round_trip_identity (ColumnPacking:=column_codec)
           (DataFramePacking:=frame_codec) empty_world
           column_layer_left_inverse frame_layer_left_inverse).
Defined.

Lemma two_buffers_or_AssertionError_witness :
  (∀ hd fr w',
     x_serialize (ColumnLayer:=column_layer) (DataFrameLayer:=frame_layer)
       (inr five_with_null) mixed_world = (Ok (hd, fr), w') →
     length fr = 2)
  ∧ length [0; 1; 2] ≠ 2
  ∧ (∀ hd fr w',
       cuda_serialize (ColumnLayer:=column_layer) (DataFrameLayer:=frame_layer)
         (inr five_with_null) mixed_world = (Ok (hd, fr), w') →
       length fr = 2)
  ∧ (∀ hd fr w',
       dask_serialize (ColumnLayer:=column_layer) (DataFrameLayer:=frame_layer)
         (inr five_with_null) mixed_world = (Ok (hd, fr), w') →
       length fr = 2)
  ∧ cuda_deserialize_DataFrame (DataFrameLayer:=frame_layer)
      [5] [0; 1; 2] mixed_world
    = (Raise AssertionError,
       logger_exception AssertionError
         (frames_to_gpumemoryview [0; 1; 2] mixed_world).2)
  ∧ cuda_deserialize_Column (ColumnLayer:=column_layer)
      [5] [0; 1; 2] mixed_world
    = (Raise AssertionError,
       logger_exception AssertionError
         (frames_to_gpumemoryview [0; 1; 2] mixed_world).2)
  ∧ dask_deserialize_DataFrame (DataFrameLayer:=frame_layer)
      [5] [0; 1; 2] mixed_world
    = (Raise AssertionError, logger_exception AssertionError mixed_world)
  ∧ dask_deserialize_Column (ColumnLayer:=column_layer)
      [5] [0; 1; 2] mixed_world
    = (Raise AssertionError, logger_exception AssertionError mixed_world).
Proof.
  assert (Hobj : ∀ hd fr w',
    x_serialize (ColumnLayer:=column_layer) (DataFrameLayer:=frame_layer)
      (inr five_with_null) mixed_world = (Ok (hd, fr), w') →
    length fr = 2).
  { intros hd fr w' H. vm_compute in H. by injection H as <- <- <-. }
  assert (Hlen : length [0; 1; 2] ≠ 2) by (simpl; lia).
  split; [exact Hobj|]. split; [exact Hlen|].
  exact (two_buffers_or_AssertionError (ColumnLayer:=column_layer)
           (DataFrameLayer:=frame_layer)
           (inr five_with_null) [5] [0; 1; 2] mixed_world Hobj Hlen).
Defined.

Lemma dask_serialize_rejects_witness :
  x_serialize (ColumnLayer:=synthetic_layer) (DataFrameLayer:=synthetic_layer)
    (inr strided) empty_world = (Ok ((), [0; 2]), strided_world)
  ∧ heap strided_world !! 2 ≫= cuda_array_interface_of = Some strided
  ∧ (length (cai_shape strided) ≠ 1
     ∨ (cai_strides strided ≠ None ∧ cai_strides strided ≠ Some [1%Z])
     ∨ cai_typestr strided ≠ "|u1"%string)
  ∧ dask_serialize (ColumnLayer:=synthetic_layer)
      (DataFrameLayer:=synthetic_layer) (inr strided) empty_world
    = (Raise AssertionError, logger_exception AssertionError strided_world)
  ∧ dmem (logger_exception AssertionError strided_world) = dmem strided_world
  ∧ trace (logger_exception AssertionError strided_world)
    = trace strided_world.
Proof.
  assert (Hbad : length (cai_shape strided) ≠ 1
     ∨ (cai_strides strided ≠ None ∧ cai_strides strided ≠ Some [1%Z])
     ∨ cai_typestr strided ≠ "|u1"%string)
    by (right; left; split; discriminate).
  split; [reflexivity|]. split; [reflexivity|]. split; [exact Hbad|].
  exact (dask_serialize_rejects (ColumnLayer:=synthetic_layer)
           (DataFrameLayer:=synthetic_layer) (inr strided) empty_world
           strided_world () 0 2 strided eq_refl eq_refl Hbad).
Defined.

Lemma dask_deserialize_copies_second_frame_witness :
  heap mixed_world !! 0 ≫= host_bytes_of = Some [x2a]
  ∧ dask_deserialize_DataFrame (DataFrameLayer:=frame_layer) [1] [3; 0]
      mixed_world
    = log_errors (deserialize (Serializable:=frame_layer) [1]
                    [3; S (length (heap mixed_world))])
        (copied_to_device mixed_world [x2a])
  ∧ dask_deserialize_Column (ColumnLayer:=column_layer) [1] [3; 0] mixed_world
    = log_errors (deserialize (Serializable:=column_layer) [1]
                    [3; S (length (heap mixed_world))])
        (copied_to_device mixed_world [x2a])
  ∧ heap (copied_to_device mixed_world [x2a]) !! S (length (heap mixed_world))
    = Some (Gpumemoryview (length (heap mixed_world))
              (CAI (length (dmem mixed_world)) [length [x2a]] None
                 "|u1"%string))
  ∧ device_read (dmem (copied_to_device mixed_world [x2a]))
      (length (dmem mixed_world)) (length [x2a])
    = Some [x2a].
Proof.
  split; [reflexivity|].
  exact (dask_deserialize_copies_second_frame (ColumnLayer:=column_layer)
           (DataFrameLayer:=frame_layer) [1] 3 0 [x2a] mixed_world eq_refl).
Defined.

Lemma host_path_byte_exact_witness :
  x_serialize (ColumnLayer:=column_layer) (DataFrameLayer:=frame_layer)
    (inr five_with_null) empty_world = (Ok ([5], [1; 3]), five_world)
  ∧ heap five_world !! 3
    = Some (Gpumemoryview 2 (CAI 0 [5] None "|u1"%string))
  ∧ contiguous_bytes (CAI 0 [5] None "|u1"%string)
  ∧ cai_shape (CAI 0 [5] None "|u1"%string) !! 0 = Some 5
  ∧ device_read (dmem five_world) 0 5 = Some five_payload
  ∧ ∃ host w2,
      dask_serialize (ColumnLayer:=column_layer) (DataFrameLayer:=frame_layer)
        (inr five_with_null) empty_world = (Ok ([5], [1; host]), w2)
      ∧ heap w2 !! host ≫= host_bytes_of = Some five_payload
      ∧ length five_payload = 5
      ∧ trace w2 = trace five_world
                   ++ [EvAlloc (length (dmem five_world)) 5;
                       EvMemcpyDtoD 0 (length (dmem five_world)) 5;
                       EvMemcpyDtoH (length (dmem five_world)) 5]
      ∧ dask_deserialize_DataFrame (DataFrameLayer:=frame_layer) [5]
          [1; host] w2
        = log_errors (deserialize (Serializable:=frame_layer) [5]
                        [1; S (length (heap w2))])
            (copied_to_device w2 five_payload)
      ∧ dask_deserialize_Column (ColumnLayer:=column_layer) [5] [1; host] w2
        = log_errors (deserialize (Serializable:=column_layer) [5]
                        [1; S (length (heap w2))])
            (copied_to_device w2 five_payload)
      ∧ heap (copied_to_device w2 five_payload) !! S (length (heap w2))
        = Some (Gpumemoryview (length (heap w2))
                  (CAI (length (dmem w2)) [5] None "|u1"%string))
      ∧ device_read (dmem (copied_to_device w2 five_payload))
          (length (dmem w2)) 5 = Some five_payload
      ∧ device_read (dmem (copied_to_device w2 five_payload)) 0 5
        = Some five_payload.
Proof.
  assert (Hcontig : contiguous_bytes (CAI 0 [5] None "|u1"%string))
    by (split; [reflexivity|]; split; [by left|reflexivity]).
  split; [reflexivity|]. split; [reflexivity|]. split; [exact Hcontig|].
  split; [reflexivity|]. split; [reflexivity|].
  exact (host_path_byte_exact (ColumnLayer:=column_layer)
           (DataFrameLayer:=frame_layer) (inr five_with_null) empty_world
           five_world [5] [5] 1 3 2 (CAI 0 [5] None "|u1"%string) 5
           five_payload eq_refl eq_refl Hcontig eq_refl eq_refl).
Defined.

(** ** More on the buffer classifier *)

Lemma exposes_app_l (h k : list pyobj) (f : ref) :
  f < length h → exposes (h ++ k) f ↔ exposes h f.
Proof. intros Hf. unfold exposes. by rewrite lookup_app_l. Qed.

Lemma filter_exposes_app (h k : list pyobj) (frames : list ref) :
  Forall (λ f, f < length h) frames →
  filter (exposes (h ++ k)) frames = filter (exposes h) frames.
Proof.
  induction 1 as [|f frames Hf _ IH]; [done|].
  rewrite !filter_cons, IH.
  pose proof (exposes_app_l h k f Hf) as Hiff.
  destruct (decide (exposes (h ++ k) f)) as [He|He];
    destruct (decide (exposes h f)) as [He'|He']; try done;
    exfalso; tauto.
Qed.

(** X1 (classifier): when no frame of the list exposes
    [__cuda_array_interface__], the classifier returns the list as it is
    and leaves the world exactly as it was: no object is created. *)
Theorem frames_to_gpumemoryview_host_frames (frames : list ref) (w : world) :
  Forall (λ f, ¬ exposes (heap w) f) frames →
  frames_to_gpumemoryview frames w = (Ok frames, w).
Proof.
  induction 1 as [|f frames Hf _ IH]; [done|].
  rewrite frames_to_gpumemoryview_cons.
  destruct (heap w !! f ≫= cuda_array_interface_of) as [cai|] eqn:E.
  - destruct Hf. unfold exposes. rewrite E. eauto.
  - by rewrite IH.
Qed.

Lemma frames_to_gpumemoryview_host_frames_witness :
  Forall (λ f, ¬ exposes (heap mixed_world) f) [0; 3; 0]
  ∧ frames_to_gpumemoryview [0; 3; 0] mixed_world = (Ok [0; 3; 0], mixed_world).
Proof.
  assert (H : Forall (λ f, ¬ exposes (heap mixed_world) f) [0; 3; 0])
    by (repeat constructor; by intros [? ?]).
  split; [exact H|].
  exact (frames_to_gpumemoryview_host_frames [0; 3; 0] mixed_world H).
Defined.

(** X2 (classifier): classifying a concatenation is classifying the first
    part and then, in the world that leaves, the second part; the outputs
    are concatenated. *)
Theorem frames_to_gpumemoryview_app (a b : list ref) (w : world) :
  frames_to_gpumemoryview (a ++ b) w
  = match frames_to_gpumemoryview a w with
    | (Ok out_a, w1) =>
        match frames_to_gpumemoryview b w1 with
        | (Ok out_b, w2) => (Ok (out_a ++ out_b), w2)
        | (Raise e, w2) => (Raise e, w2)
        end
    | (Raise e, w1) => (Raise e, w1)
    end.
Proof.
  revert w. induction a as [|f a IH]; intros w.
  - rewrite frames_to_gpumemoryview_nil. simpl.
    by destruct (frames_to_gpumemoryview b w) as [[out_b|e] w2].
  - change ((f :: a) ++ b) with (f :: (a ++ b)).
    rewrite !frames_to_gpumemoryview_cons.
    destruct (heap w !! f ≫= cuda_array_interface_of) as [cai|].
    + rewrite IH.
      destruct (frames_to_gpumemoryview a _) as [[out_a|e] w1]; [|done].
      by destruct (frames_to_gpumemoryview b w1) as [[out_b|e] w2].
    + rewrite IH.
      destruct (frames_to_gpumemoryview a w) as [[out_a|e] w1]; [|done].
      by destruct (frames_to_gpumemoryview b w1) as [[out_b|e] w2].
Qed.

(** Where the handles go: on live frames the classifier appends one native
    handle per frame that exposes the interface, in the order of the list,
    so the handle of such a frame at index [i] is the object numbered
    [length (heap w)] plus the number of such frames before index [i]. *)
Lemma frames_to_gpumemoryview_positions frames : ∀ w,
  Forall (λ f, f < length (heap w)) frames →
  ∃ out news,
    frames_to_gpumemoryview frames w = (Ok out, with_heap w (heap w ++ news))
    ∧ length news = length (filter (exposes (heap w)) frames)
    ∧ ∀ i f, frames !! i = Some f → exposes (heap w) f →
        out !! i
        = Some (length (heap w)
                + length (filter (exposes (heap w)) (take i frames))).
Proof.
  induction frames as [|f frames IH]; intros w Hlive.
  - exists [], []. rewrite app_nil_r. split; [by destruct w|]. by split.
  - apply Forall_cons in Hlive as [Hf Hlive].
    rewrite frames_to_gpumemoryview_cons.
    destruct (heap w !! f ≫= cuda_array_interface_of) as [cai|] eqn:E.
    + assert (Hexp : exposes (heap w) f) by (unfold exposes; rewrite E; eauto).
      destruct (IH (with_heap w (heap w ++ [Gpumemoryview f cai])))
        as (out & news & -> & Hlen & Hpos).
      { simpl. rewrite length_app. simpl.
        eapply Forall_impl; [exact Hlive|]. simpl. intros; lia. }
      exists (length (heap w) :: out), (Gpumemoryview f cai :: news).
      simpl in *. rewrite <- app_assoc. split; [done|].
      rewrite filter_exposes_app in Hlen by done.
      rewrite filter_cons_True by done. split; [simpl; by rewrite Hlen|].
      intros [|i] g Hi Hg; simpl in *.
      * f_equal. lia.
      * rewrite filter_cons_True by done.
        pose proof (Forall_lookup_1 _ _ _ _ Hlive Hi) as Hgl. simpl in Hgl.
        rewrite (Hpos i g Hi) by (by apply exposes_app_l).
        rewrite filter_exposes_app by (by apply Forall_take).
        rewrite length_app. simpl. f_equal. lia.
    + assert (Hexp : ¬ exposes (heap w) f)
        by (unfold exposes; rewrite E; by intros [? ?]).
      destruct (IH w Hlive) as (out & news & -> & Hlen & Hpos).
      exists (f :: out), news. split; [done|].
      rewrite filter_cons_False by done. split; [done|].
      intros [|i] g Hi Hg; simpl in *.
      * by injection Hi as ->.
      * rewrite filter_cons_False by done. by apply (Hpos i g).
Qed.

(** X3 (classifier): on live frames the classifier creates exactly one new
    object per frame that exposes the interface, and nothing else. *)
Theorem frames_to_gpumemoryview_one_handle_each (frames : list ref)
    (w : world) :
  Forall (λ f, f < length (heap w)) frames →
  ∃ out w',
    frames_to_gpumemoryview frames w = (Ok out, w')
    ∧ length (heap w')
      = length (heap w) + length (filter (exposes (heap w)) frames).
Proof.
  intros Hlive.
  destruct (frames_to_gpumemoryview_positions frames w Hlive)
    as (out & news & Hrun & Hlen & _).
  exists out, (with_heap w (heap w ++ news)). split; [done|].
  simpl. by rewrite length_app, Hlen.
Qed.

Lemma frames_to_gpumemoryview_one_handle_each_witness :
  Forall (λ f, f < length (heap mixed_world)) [0; 1; 2; 3; 1]
  ∧ ∃ out w',
      frames_to_gpumemoryview [0; 1; 2; 3; 1] mixed_world = (Ok out, w')
      ∧ length (heap w')
        = length (heap mixed_world)
          + length (filter (exposes (heap mixed_world)) [0; 1; 2; 3; 1]).
Proof.
  assert (H : Forall (λ f, f < length (heap mixed_world)) [0; 1; 2; 3; 1])
    by (repeat constructor; simpl; lia).
  split; [exact H|].
  exact (frames_to_gpumemoryview_one_handle_each [0; 1; 2; 3; 1] mixed_world H).
Defined.

Lemma filter_take_lt {A} (P : A → Prop) `{!∀ x, Decision (P x)}
    (l : list A) (i j : nat) (x : A) :
  i < j → l !! i = Some x → P x →
  length (filter P (take i l)) < length (filter P (take j l)).
Proof.
  intros Hij Hi HP.
  rewrite <- (take_drop (S i) (take j l)).
  rewrite take_take, Nat.min_l by lia.
  rewrite (take_S_r _ _ _ Hi), !filter_app, !length_app.
  rewrite filter_cons_True by done. simpl. lia.
Qed.

(** X4 (classifier): on live frames, two different positions whose frames
    expose the interface get two different handles, also when both positions
    hold the same object. *)
Theorem frames_to_gpumemoryview_distinct_handles (frames : list ref)
    (w : world) (i j : nat) (fi fj : ref) :
  Forall (λ f, f < length (heap w)) frames →
  i ≠ j →
  frames !! i = Some fi → frames !! j = Some fj →
  exposes (heap w) fi → exposes (heap w) fj →
  ∃ out w' gi gj,
    frames_to_gpumemoryview frames w = (Ok out, w')
    ∧ out !! i = Some gi ∧ out !! j = Some gj ∧ gi ≠ gj.
Proof.
  intros Hlive Hij Hi Hj Hei Hej.
  destruct (frames_to_gpumemoryview_positions frames w Hlive)
    as (out & news & Hrun & _ & Hpos).
  eexists out, _, _, _. split; [exact Hrun|].
  split; [by apply (Hpos i fi)|]. split; [by apply (Hpos j fj)|].
  destruct (decide (i < j)) as [Hlt|Hge].
  - pose proof (filter_take_lt (exposes (heap w)) frames i j fi Hlt Hi Hei).
    lia.
  - assert (Hlt : j < i) by lia.
    pose proof (filter_take_lt (exposes (heap w)) frames j i fj Hlt Hj Hej).
    lia.
Qed.

Lemma frames_to_gpumemoryview_distinct_handles_witness :
  Forall (λ f, f < length (heap mixed_world)) [1; 0; 1]
  ∧ 0 ≠ 2
  ∧ [1; 0; 1] !! 0 = Some 1 ∧ [1; 0; 1] !! 2 = Some 1
  ∧ exposes (heap mixed_world) 1
  ∧ ∃ out w' gi gj,
      frames_to_gpumemoryview [1; 0; 1] mixed_world = (Ok out, w')
      ∧ out !! 0 = Some gi ∧ out !! 2 = Some gj ∧ gi ≠ gj.
Proof.
  assert (Hlive : Forall (λ f, f < length (heap mixed_world)) [1; 0; 1])
    by (repeat constructor; simpl; lia).
  assert (Hne : 0 ≠ 2) by lia.
  assert (He : exposes (heap mixed_world) 1) by (unfold exposes; simpl; eauto).
  split; [exact Hlive|]. split; [exact Hne|]. split; [reflexivity|].
  split; [reflexivity|]. split; [exact He|].
  exact (frames_to_gpumemoryview_distinct_handles [1; 0; 1] mixed_world 0 2 1 1
           Hlive Hne eq_refl eq_refl He He).
Defined.

Lemma classified_live (h h' : list pyobj) (frames out : list ref) :
  length h ≤ length h' →
  Forall (λ f, f < length h) frames →
  Forall2 (classified h h') frames out →
  Forall (λ f, f < length h') out.
Proof.
  intros Hle Hlive Hcls. induction Hcls as [|f f' frames out Hc _ IH].
  - constructor.
  - apply Forall_cons in Hlive as [Hf Hlive]. constructor; [|by apply IH].
    unfold classified in Hc.
    destruct (h !! f ≫= cuda_array_interface_of) as [cai|].
    + destruct Hc as [_ Hc]. by apply lookup_lt_Some in Hc.
    + subst f'. lia.
Qed.

(** X5 (classifier): classifying the classifier's own output changes no
    interface.  On live frames, each frame of the second output exposes
    exactly the interface of the frame at the same index of the first
    output (none, when that frame exposes none). *)
Theorem frames_to_gpumemoryview_twice (frames : list ref) (w : world) :
  Forall (λ f, f < length (heap w)) frames →
  ∃ out w1 out2 w2,
    frames_to_gpumemoryview frames w = (Ok out, w1)
    ∧ frames_to_gpumemoryview out w1 = (Ok out2, w2)
    ∧ Forall2 (λ f1 f2,
        heap w2 !! f2 ≫= cuda_array_interface_of
        = heap w2 !! f1 ≫= cuda_array_interface_of) out out2.
Proof.
  intros Hlive.
  destruct (frames_to_gpumemoryview_classified frames w Hlive)
    as (out & news & Hrun & Hcls).
  assert (Hlive1 : Forall (λ f, f < length (heap w ++ news)) out).
  { eapply classified_live; [|exact Hlive|exact Hcls].
    rewrite length_app. lia. }
  destruct (frames_to_gpumemoryview_classified out
              (with_heap w (heap w ++ news)) Hlive1)
    as (out2 & news2 & Hrun2 & Hcls2).
  eexists out, _, out2, _. split; [exact Hrun|]. split; [exact Hrun2|].
  simpl in *. clear Hrun Hrun2 Hcls.
  induction Hcls2 as [|f1 f2 out out2 Hc _ IH]; [constructor|].
  apply Forall_cons in Hlive1 as [Hf1 Hlive1].
  constructor; [|by apply IH].
  unfold classified in Hc.
  rewrite (lookup_app_l (heap w ++ news) news2 f1) by done.
  destruct ((heap w ++ news) !! f1 ≫= cuda_array_interface_of)
    as [cai|] eqn:E.
  - destruct Hc as [_ ->]. done.
  - subst f2. by rewrite lookup_app_l by done.
Qed.

Lemma frames_to_gpumemoryview_twice_witness :
  Forall (λ f, f < length (heap mixed_world)) [0; 1; 2; 3]
  ∧ ∃ out w1 out2 w2,
      frames_to_gpumemoryview [0; 1; 2; 3] mixed_world = (Ok out, w1)
      ∧ frames_to_gpumemoryview out w1 = (Ok out2, w2)
      ∧ Forall2 (λ f1 f2,
          heap w2 !! f2 ≫= cuda_array_interface_of
          = heap w2 !! f1 ≫= cuda_array_interface_of) out out2.
Proof.
  assert (Hlive : Forall (λ f, f < length (heap mixed_world)) [0; 1; 2; 3])
    by (repeat constructor; simpl; lia).
  split; [exact Hlive|].
  exact (frames_to_gpumemoryview_twice [0; 1; 2; 3] mixed_world Hlive).
Defined.

(** ** More on the hooks, for any object layer *)

Lemma rmm_DeviceBuffer_Ok_inv ptr size w r w' :
  rmm_DeviceBuffer ptr size w = (Ok r, w') →
  is_Some (device_read (dmem w) ptr size).
Proof.
  unfold rmm_DeviceBuffer. intros H.
  apply bind_inv_Ok in H as (m & w1 & [= <- <-] & H).
  destruct (device_read (dmem w) ptr size); [eauto|discriminate].
Qed.

Lemma host_bytes_no_interface (o : pyobj) b :
  host_bytes_of o = Some b → cuda_array_interface_of o = None.
Proof. by destruct o. Qed.

Section more_hooks.
Context {Header Column DataFrame : Type}.
Context `{ColumnLayer : !Serializable Header Column}.
Context `{DataFrameLayer : !Serializable Header DataFrame}.

(** X6 (device-path deserialize): given two frames, the hook only
    classifies them and then calls the object's [deserialize] on the two
    classified frames; at that call device memory, the device trace and the
    log are what they were on entry: nothing was allocated or copied on the
    device, and the host is not involved. *)
Theorem cuda_deserialize_classifies_only (header : Header) (a b : ref)
    (w : world) :
  ∃ out w1,
    frames_to_gpumemoryview [a; b] w = (Ok out, w1)
    ∧ length out = 2
    ∧ dmem w1 = dmem w ∧ trace w1 = trace w ∧ log w1 = log w
    ∧ cuda_deserialize_DataFrame (DataFrame:=DataFrame) header [a; b] w
      = log_errors (deserialize (T:=DataFrame) header out) w1
    ∧ cuda_deserialize_Column (Column:=Column) header [a; b] w
      = log_errors (deserialize (T:=Column) header out) w1.
Proof.
  destruct (frames_to_gpumemoryview_total [a; b] w)
    as (out & news & Hrun & Hlen).
  exists out, (with_heap w (heap w ++ news)).
  split; [done|]. split; [done|]. do 3 (split; [done|]).
  split.
  - unfold cuda_deserialize_DataFrame, cuda_deserialize_DataFrame_body.
    erewrite log_errors_bind_Ok; [|exact Hrun].
    by erewrite log_errors_bind_Ok;
      [|by apply assert_true, bool_decide_eq_true_2].
  - unfold cuda_deserialize_Column, cuda_deserialize_Column_body.
    erewrite log_errors_bind_Ok; [|exact Hrun].
    by erewrite log_errors_bind_Ok;
      [|by apply assert_true, bool_decide_eq_true_2].
Qed.

(** X7 (serialize, both paths): the number of frames that [x.serialize()]
    returns is checked on the host path only.  When it is not 2, host-path
    serialize raises [ValueError] (the tuple does not unpack) and logs it,
    while device-path serialize returns the frames as they are. *)
Theorem frame_count_checked_on_host_path_only (x : DataFrame + Column)
    (w w1 : world) (header : Header) (frames : list ref) :
  x_serialize x w = (Ok (header, frames), w1) →
  length frames ≠ 2 →
  cuda_serialize x w = (Ok (header, frames), w1)
  ∧ dask_serialize x w = (Raise ValueError, logger_exception ValueError w1).
Proof.
  intros Hser Hlen. split.
  - rewrite cuda_serialize_run. by rewrite Hser.
  - apply log_errors_Raise; [done|]. unfold dask_serialize_body.
    erewrite bind_Ok; [|exact Hser]. simpl.
    apply bind_Raise.
    by destruct frames as [|? [|? [|? ?]]].
Qed.

(** X8 (host-path serialize): when the second frame of [x.serialize()]
    does not expose [__cuda_array_interface__], the hook raises
    [AttributeError] and logs it; the world is otherwise as [x.serialize()]
    left it. *)
Theorem dask_serialize_needs_interface (x : DataFrame + Column)
    (w w1 : world) (header : Header) (metadata gpudata : ref) :
  x_serialize x w = (Ok (header, [metadata; gpudata]), w1) →
  ¬ exposes (heap w1) gpudata →
  dask_serialize x w
  = (Raise AttributeError, logger_exception AttributeError w1).
Proof.
  intros Hser Hno. apply log_errors_Raise; [done|]. unfold dask_serialize_body.
  erewrite bind_Ok; [|exact Hser]. simpl.
  erewrite bind_Ok; [|apply unpack2_run]. simpl.
  apply bind_Raise. unfold getattr_cuda_array_interface.
  erewrite bind_Ok; [|reflexivity]. simpl.
  destruct (heap w1 !! gpudata ≫= cuda_array_interface_of) eqn:E; [|done].
  destruct Hno. unfold exposes. rewrite E. eauto.
Qed.

(** X9 (host-path serialize): when [x.serialize()] returns two frames, the
    second one a native handle, the hook returns a value exactly when the
    handle's interface is rank 1 with unset or [(1,)] strides and type
    ["|u1"], and the [shape[0]] bytes at its pointer can be read. *)
Theorem dask_serialize_returns_iff (x : DataFrame + Column) (w w1 : world)
    (header : Header) (metadata gpudata obj : ref)
    (cai : cuda_array_interface) :
  x_serialize x w = (Ok (header, [metadata; gpudata]), w1) →
  heap w1 !! gpudata = Some (Gpumemoryview obj cai) →
  returns (dask_serialize x w)
  ↔ contiguous_bytes cai
    ∧ ∃ n, cai_shape cai !! 0 = Some n
           ∧ is_Some (device_read (dmem w1) (cai_data cai) n).
Proof.
  intros Hser Hobj. split.
  - unfold returns.
    destruct (dask_serialize x w) as [[[hd fr]|e] w2] eqn:E; [|done].
    intros _.
    apply log_errors_Ok_inv in E. unfold dask_serialize_body in E.
    apply bind_inv_Ok in E as ([hd' fr'] & w' & Hser' & E).
    rewrite Hser in Hser'. injection Hser' as <- <- <-.
    apply bind_inv_Ok in E as ([m g] & w' & [= <- <- <-] & E).
    apply bind_inv_Ok in E as (cai' & w' & Hcai & E).
    rewrite (getattr_cuda_array_interface_run gpudata cai w1) in Hcai
      by (by rewrite Hobj).
    injection Hcai as <- <-.
    apply bind_inv_Ok in E as (? & w' & [H1 ->]%assert_Ok_inv & E).
    apply bind_inv_Ok in E as (? & w' & [H2 ->]%assert_Ok_inv & E).
    apply bind_inv_Ok in E as (? & w' & [H3 ->]%assert_Ok_inv & E).
    apply bool_decide_eq_true in H1. apply strides_check in H2.
    apply bool_decide_eq_true in H3.
    apply bind_inv_Ok in E as (n & w' & Hn & E).
    unfold getitem in Hn.
    destruct (cai_shape cai !! 0) as [n'|] eqn:Hshape; [|discriminate].
    injection Hn as -> <-.
    apply bind_inv_Ok in E as (ptr & w' & Hptr & E).
    rewrite (getattr_ptr_native gpudata obj cai w1 Hobj) in Hptr.
    injection Hptr as <- <-.
    apply bind_inv_Ok in E as (buf & w' & Hbuf & _).
    apply rmm_DeviceBuffer_Ok_inv in Hbuf.
    split; [by split|]. by exists n.
  - intros (Hcontig & n & Hn & [b Hread]).
    unfold returns.
    by rewrite (dask_serialize_run x w w1 header metadata gpudata obj cai n b
                  Hser Hobj Hcontig Hn Hread).
Qed.

(** X10 (host-path deserialize): when the second of two frames is not a
    host buffer, the hook raises [TypeError] and logs it, for either class;
    nothing was allocated on the device and no object was created. *)
Theorem dask_deserialize_needs_host_buffer (header : Header)
    (frame0 frame1 : ref) (w : world) :
  heap w !! frame1 ≫= host_bytes_of = None →
  dask_deserialize_DataFrame (DataFrame:=DataFrame) header [frame0; frame1] w
  = (Raise TypeError, logger_exception TypeError w)
  ∧ dask_deserialize_Column (Column:=Column) header [frame0; frame1] w
    = (Raise TypeError, logger_exception TypeError w).
Proof.
  intros Hno.
  assert (Hto : rmm_DeviceBuffer_to_device frame1 w = (Raise TypeError, w)).
  { unfold rmm_DeviceBuffer_to_device.
    erewrite bind_Ok; [|reflexivity]. simpl. by rewrite Hno. }
  split; (apply log_errors_Raise; [done|]).
  - unfold dask_deserialize_DataFrame_body.
    erewrite bind_Ok; [|by apply assert_true].
    erewrite bind_Ok; [|by apply getitem_run].
    erewrite bind_Ok; [|by apply getitem_run].
    by apply bind_Raise.
  - unfold dask_deserialize_Column_body.
    erewrite bind_Ok; [|by apply assert_true].
    erewrite bind_Ok; [|by apply getitem_run].
    erewrite bind_Ok; [|by apply getitem_run].
    by apply bind_Raise.
Qed.
End more_hooks.

Lemma frame_count_checked_on_host_path_only_witness :
  x_serialize (ColumnLayer:=lopsided_layer) (DataFrameLayer:=lopsided_layer)
    (inr 3) empty_world
  = (Ok ((), [0; 0; 0]), World [PyBytes []] [] [] [])
  ∧ length [0; 0; 0] ≠ 2
  ∧ cuda_serialize (ColumnLayer:=lopsided_layer)
      (DataFrameLayer:=lopsided_layer) (inr 3) empty_world
    = (Ok ((), [0; 0; 0]), World [PyBytes []] [] [] [])
  ∧ dask_serialize (ColumnLayer:=lopsided_layer)
      (DataFrameLayer:=lopsided_layer) (inr 3) empty_world
    = (Raise ValueError,
       logger_exception ValueError (World [PyBytes []] [] [] [])).
Proof.
  assert (Hlen : length [0; 0; 0] ≠ 2) by (simpl; lia).
  split; [reflexivity|]. split; [exact Hlen|].
  exact (frame_count_checked_on_host_path_only
           (ColumnLayer:=lopsided_layer) (DataFrameLayer:=lopsided_layer)
           (inr 3) empty_world (World [PyBytes []] [] [] []) () [0; 0; 0]
           eq_refl Hlen).
Defined.

Lemma dask_serialize_needs_interface_witness :
  x_serialize (ColumnLayer:=lopsided_layer) (DataFrameLayer:=lopsided_layer)
    (inr 2) empty_world
  = (Ok ((), [0; 0]), World [PyBytes []] [] [] [])
  ∧ ¬ exposes (heap (World [PyBytes []] [] [] [])) 0
  ∧ dask_serialize (ColumnLayer:=lopsided_layer)
      (DataFrameLayer:=lopsided_layer) (inr 2) empty_world
    = (Raise AttributeError,
       logger_exception AttributeError (World [PyBytes []] [] [] [])).
Proof.
  assert (Hno : ¬ exposes (heap (World [PyBytes []] [] [] [])) 0)
    by (by intros [? ?]).
  split; [reflexivity|]. split; [exact Hno|].
  exact (dask_serialize_needs_interface
           (ColumnLayer:=lopsided_layer) (DataFrameLayer:=lopsided_layer)
           (inr 2) empty_world (World [PyBytes []] [] [] []) () 0 0
           eq_refl Hno).
Defined.

Lemma dask_serialize_returns_iff_witness :
  x_serialize (ColumnLayer:=column_layer) (DataFrameLayer:=frame_layer)
    (inr five_with_null) empty_world = (Ok ([5], [1; 3]), five_world)
  ∧ heap five_world !! 3
    = Some (Gpumemoryview 2 (CAI 0 [5] None "|u1"%string))
  ∧ (returns (dask_serialize (ColumnLayer:=column_layer)
                (DataFrameLayer:=frame_layer) (inr five_with_null)
                empty_world)
     ↔ contiguous_bytes (CAI 0 [5] None "|u1"%string)
       ∧ ∃ n, cai_shape (CAI 0 [5] None "|u1"%string) !! 0 = Some n
              ∧ is_Some (device_read (dmem five_world)
                           (cai_data (CAI 0 [5] None "|u1"%string)) n)).
Proof.
  split; [reflexivity|]. split; [reflexivity|].
  exact (dask_serialize_returns_iff (ColumnLayer:=column_layer)
           (DataFrameLayer:=frame_layer) (inr five_with_null) empty_world
           five_world [5] 1 3 2 (CAI 0 [5] None "|u1"%string)
           eq_refl eq_refl).
Defined.

Lemma dask_deserialize_needs_host_buffer_witness :
  heap mixed_world !! 1 ≫= host_bytes_of = None
  ∧ dask_deserialize_DataFrame (DataFrameLayer:=frame_layer) [1] [0; 1]
      mixed_world
    = (Raise TypeError, logger_exception TypeError mixed_world)
  ∧ dask_deserialize_Column (ColumnLayer:=column_layer) [1] [0; 1]
      mixed_world
    = (Raise TypeError, logger_exception TypeError mixed_world).
Proof.
  split; [reflexivity|].
  exact (dask_deserialize_needs_host_buffer (ColumnLayer:=column_layer)
           (DataFrameLayer:=frame_layer) [1] 0 1 mixed_world eq_refl).
Defined.

(** ** Receiving, for the modelled object layer *)
Section receive.
Context {Header T : Type} `{Packing : !Codec Header T}.

Lemma packed_device_receive (x : T) header m d (metadata buf : ref) cai w :
  unpack header m d = Ok x →
  heap w !! metadata ≫= host_bytes_of = Some m →
  heap w !! buf ≫= cuda_array_interface_of = Some cai →
  cai_shape cai !! 0 = Some (length d) →
  device_read (dmem w) (cai_data cai) (length d) = Some d →
  ∃ w2,
    log_errors
      (frames ← frames_to_gpumemoryview [metadata; buf];
       assert (bool_decide (length frames = 2));;
       packed_deserialize header frames) w
    = (Ok x, w2).
Proof.
  intros Hx Hm Hbuf Hn Hread. eexists.
  destruct (heap w !! metadata) as [o|] eqn:Ho; [|done].
  erewrite cuda_deserialize_run; [| |exact Hbuf]; cycle 1.
  { rewrite Ho. simpl in *. by eapply host_bytes_no_interface. }
  apply log_errors_Ok.
  erewrite (packed_deserialize_run _ _ _ _ _ m _ (length d) d); cycle 1.
  { unfold with_heap. cbn [heap].
    rewrite lookup_app_l by (by eapply lookup_lt_Some). by rewrite Ho. }
  { unfold with_heap. cbn [heap]. by rewrite lookup_app_r, Nat.sub_diag. }
  { done. }
  { done. }
  by rewrite Hx.
Qed.

Lemma packed_host_receive (x : T) header m d (metadata payload : ref) w :
  unpack header m d = Ok x →
  heap w !! metadata ≫= host_bytes_of = Some m →
  heap w !! payload ≫= host_bytes_of = Some d →
  ∃ w2,
    log_errors
      (assert (bool_decide (length [metadata; payload] = 2));;
       frame0 ← getitem [metadata; payload] 0;
       frame1 ← getitem [metadata; payload] 1;
       buf ← rmm_DeviceBuffer_to_device frame1;
       gpudata ← plc_gpumemoryview buf;
       packed_deserialize header [frame0; gpudata]) w
    = (Ok x, w2).
Proof.
  intros Hx Hm Hd. eexists.
  erewrite (dask_deserialize_run (packed_deserialize header)); [|exact Hd].
  apply log_errors_Ok.
  destruct (heap w !! metadata) as [o|] eqn:Ho; [|done].
  erewrite (packed_deserialize_run _ _ _ _ _ m _ (length d) d); cycle 1.
  { unfold copied_to_device. cbn [heap].
    rewrite lookup_app_l by (by eapply lookup_lt_Some). by rewrite Ho. }
  { apply copied_to_device_handle. }
  { done. }
  { apply device_read_new. }
  by rewrite Hx.
Qed.
End receive.

Section receive_hooks.
Context {Header Column DataFrame : Type}.
Context `{ColumnPacking : !Codec Header Column}.
Context `{DataFramePacking : !Codec Header DataFrame}.
#[local] Existing Instance packed_layer.

(** X12 (device-path deserialize, modelled object layer): a receiver that
    holds the packed metadata in a host buffer and the packed payload in
    device memory behind any object that exposes the interface with
    [shape[0]] the payload's length (an [rmm.DeviceBuffer] as UCX delivers
    it, or a native handle) gets the object back from the device-path hook,
    in whatever world it runs. *)
Theorem device_path_receives (w : world) (header : Header)
    (m d : list byte) (metadata buf : ref) (cai : cuda_array_interface) :
  left_inverse Header Column →
  left_inverse Header DataFrame →
  heap w !! metadata ≫= host_bytes_of = Some m →
  heap w !! buf ≫= cuda_array_interface_of = Some cai →
  cai_shape cai !! 0 = Some (length d) →
  device_read (dmem w) (cai_data cai) (length d) = Some d →
  (∀ df : DataFrame, pack df = (header, m, d) →
     ∃ w2, cuda_deserialize_DataFrame header [metadata; buf] w = (Ok df, w2))
  ∧ (∀ col : Column, pack col = (header, m, d) →
       ∃ w2, cuda_deserialize_Column header [metadata; buf] w = (Ok col, w2)).
Proof.
  intros Hcol Hdf Hm Hbuf Hn Hread. split.
  - intros df E.
    apply (packed_device_receive df header m d metadata buf cai w); try done.
    by apply (left_inverse_unpack Hdf).
  - intros col E.
    apply (packed_device_receive col header m d metadata buf cai w); try done.
    by apply (left_inverse_unpack Hcol).
Qed.

(** X13 (host-path deserialize, modelled object layer): a receiver that
    holds the packed metadata and the packed payload in two host buffers
    gets the object back from the host-path hook, in whatever world it
    runs. *)
Theorem host_path_receives (w : world) (header : Header)
    (m d : list byte) (metadata payload : ref) :
  left_inverse Header Column →
  left_inverse Header DataFrame →
  heap w !! metadata ≫= host_bytes_of = Some m →
  heap w !! payload ≫= host_bytes_of = Some d →
  (∀ df : DataFrame, pack df = (header, m, d) →
     ∃ w2, dask_deserialize_DataFrame header [metadata; payload] w
           = (Ok df, w2))
  ∧ (∀ col : Column, pack col = (header, m, d) →
       ∃ w2, dask_deserialize_Column header [metadata; payload] w
             = (Ok col, w2)).
Proof.
  intros Hcol Hdf Hm Hd. split.
  - intros df E.
    apply (packed_host_receive df header m d metadata payload w); try done.
    by apply (left_inverse_unpack Hdf).
  - intros col E.
    apply (packed_host_receive col header m d metadata payload w); try done.
    by apply (left_inverse_unpack Hcol).
Qed.
End receive_hooks.

Lemma device_path_receives_witness :
  left_inverse (list nat) sample_column (Layer:=column_layer)
  ∧ left_inverse (list nat) sample_frame (Layer:=frame_layer)
  ∧ heap ucx_world !! 0 ≫= host_bytes_of = Some five_mask
  ∧ heap ucx_world !! 1 ≫= cuda_array_interface_of
    = Some (CAI 0 [5] None "|u1"%string)
  ∧ cai_shape (CAI 0 [5] None "|u1"%string) !! 0 = Some (length five_payload)
  ∧ device_read (dmem ucx_world) (cai_data (CAI 0 [5] None "|u1"%string))
      (length five_payload) = Some five_payload
  ∧ (∀ df : sample_frame,
       pack (Codec:=frame_codec) df = ([5], five_mask, five_payload) →
       ∃ w2, cuda_deserialize_DataFrame (DataFrameLayer:=frame_layer)
               [5] [0; 1] ucx_world = (Ok df, w2))
  ∧ (∀ col : sample_column,
       pack (Codec:=column_codec) col = ([5], five_mask, five_payload) →
       ∃ w2, cuda_deserialize_Column (ColumnLayer:=column_layer)
               [5] [0; 1] ucx_world = (Ok col, w2)).
Proof.
  split; [exact column_layer_left_inverse|].
  split; [exact frame_layer_left_inverse|].
  do 4 (split; [reflexivity|]).
  exact (device_path_receives (ColumnPacking:=column_codec)
           (DataFramePacking:=frame_codec) ucx_world [5] five_mask
           five_payload 0 1 (CAI 0 [5] None "|u1"%string)
           column_layer_left_inverse frame_layer_left_inverse
           eq_refl eq_refl eq_refl eq_refl).
Defined.

Lemma host_path_receives_witness :
  left_inverse (list nat) sample_column (Layer:=column_layer)
  ∧ left_inverse (list nat) sample_frame (Layer:=frame_layer)
  ∧ heap host_world !! 0 ≫= host_bytes_of = Some five_mask
  ∧ heap host_world !! 1 ≫= host_bytes_of = Some five_payload
  ∧ (∀ df : sample_frame,
       pack (Codec:=frame_codec) df = ([5], five_mask, five_payload) →
       ∃ w2, dask_deserialize_DataFrame (DataFrameLayer:=frame_layer)
               [5] [0; 1] host_world = (Ok df, w2))
  ∧ (∀ col : sample_column,
       pack (Codec:=column_codec) col = ([5], five_mask, five_payload) →
       ∃ w2, dask_deserialize_Column (ColumnLayer:=column_layer)
               [5] [0; 1] host_world = (Ok col, w2)).
Proof.
  split; [exact column_layer_left_inverse|].
  split; [exact frame_layer_left_inverse|].
  do 2 (split; [reflexivity|]).
  exact (host_path_receives (ColumnPacking:=column_codec)
           (DataFramePacking:=frame_codec) host_world [5] five_mask
           five_payload 0 1
           column_layer_left_inverse frame_layer_left_inverse
           eq_refl eq_refl).
Defined.

(** ** [register] *)

Lemma dispatch_Some {Hook} (table : gmap string Hook) cls hook w :
  table !! cls = Some hook → dispatch table cls w = (Ok hook, w).
Proof. intros E. unfold dispatch. by rewrite E. Qed.

Lemma insert_twice_twice {V} (k1 k2 : string) (v1 v2 : V)
    (t : gmap string V) :
  <[k1:=v1]> (<[k2:=v2]> (<[k1:=v1]> (<[k2:=v2]> t)))
  = <[k1:=v1]> (<[k2:=v2]> t).
Proof.
  apply map_eq. intros k. rewrite !lookup_insert.
  by repeat case_decide.
Qed.

Section register_facts.
Context {Header Column DataFrame : Type}.
Context `{ColumnLayer : !Serializable Header Column}.
Context `{DataFrameLayer : !Serializable Header DataFrame}.

Lemma dumps_register_cuda (r : @registry Header Column DataFrame) (x : DataFrame + Column) w :
  dumps (cuda_serialize_table (register r)) (type_name x) x w
  = cuda_serialize x w.
Proof.
  unfold dumps. erewrite bind_Ok; [reflexivity|].
  apply dispatch_Some. simpl.
  destruct x; simpl; [by rewrite lookup_insert_eq|].
  by rewrite lookup_insert_ne, lookup_insert_eq.
Qed.

Lemma dumps_register_dask (r : @registry Header Column DataFrame) (x : DataFrame + Column) w :
  dumps (dask_serialize_table (register r)) (type_name x) x w
  = dask_serialize x w.
Proof.
  unfold dumps. erewrite bind_Ok; [reflexivity|].
  apply dispatch_Some. simpl.
  destruct x; simpl; [by rewrite lookup_insert_eq|].
  by rewrite lookup_insert_ne, lookup_insert_eq.
Qed.

Lemma loads_register (r : @registry Header Column DataFrame) header frames w :
  loads (cuda_deserialize_table (register r)) "DataFrame" header frames w
  = (inl <$> cuda_deserialize_DataFrame header frames) w
  ∧ loads (cuda_deserialize_table (register r)) "Column" header frames w
    = (inr <$> cuda_deserialize_Column header frames) w
  ∧ loads (dask_deserialize_table (register r)) "DataFrame" header frames w
    = (inl <$> dask_deserialize_DataFrame header frames) w
  ∧ loads (dask_deserialize_table (register r)) "Column" header frames w
    = (inr <$> dask_deserialize_Column header frames) w.
Proof.
  unfold loads. repeat split.
  - erewrite bind_Ok; cycle 1.
    { apply dispatch_Some. simpl.
      by rewrite lookup_insert_ne, lookup_insert_eq. }
    done.
  - erewrite bind_Ok; cycle 1.
    { apply dispatch_Some. simpl. by rewrite lookup_insert_eq. }
    done.
  - erewrite bind_Ok; cycle 1.
    { apply dispatch_Some. simpl.
      by rewrite lookup_insert_ne, lookup_insert_eq. }
    done.
  - erewrite bind_Ok; cycle 1.
    { apply dispatch_Some. simpl. by rewrite lookup_insert_eq. }
    done.
Qed.

(** X14 (register): calling [register] a second time changes nothing:
    the four tables are what the first call made them. *)
Theorem register_idempotent (r : @registry Header Column DataFrame) :
  register (register r) = register r.
Proof.
  unfold register. simpl. f_equal; apply insert_twice_twice.
Qed.

(** X15 (register): after [register], whatever was registered before, the
    transport finds the hooks of this module: serializing an object looks
    up its class and runs [cuda_serialize] or [dask_serialize]; deserializing
    a message for class DataFrame runs the DataFrame hook, and one for class
    Column the Column hook, on either path. *)
Theorem register_installs_hooks (r : @registry Header Column DataFrame) (x : DataFrame + Column)
    (header : Header) (frames : list ref) (w : world) :
  dumps (cuda_serialize_table (register r)) (type_name x) x w
  = cuda_serialize x w
  ∧ dumps (dask_serialize_table (register r)) (type_name x) x w
    = dask_serialize x w
  ∧ loads (cuda_deserialize_table (register r)) "DataFrame" header frames w
    = (inl <$> cuda_deserialize_DataFrame header frames) w
  ∧ loads (cuda_deserialize_table (register r)) "Column" header frames w
    = (inr <$> cuda_deserialize_Column header frames) w
  ∧ loads (dask_deserialize_table (register r)) "DataFrame" header frames w
    = (inl <$> dask_deserialize_DataFrame header frames) w
  ∧ loads (dask_deserialize_table (register r)) "Column" header frames w
    = (inr <$> dask_deserialize_Column header frames) w.
Proof.
  split; [apply dumps_register_cuda|]. split; [apply dumps_register_dask|].
  apply loads_register.
Qed.

(** X16 (register): [register] touches the entries of Column and DataFrame
    only: in each of the four tables, the hook registered for any other
    class, or its absence, is as before. *)
Theorem register_keeps_other_classes (r : @registry Header Column DataFrame) (cls : string) :
  cls ≠ "Column" → cls ≠ "DataFrame" →
  cuda_serialize_table (register r) !! cls = cuda_serialize_table r !! cls
  ∧ cuda_deserialize_table (register r) !! cls
    = cuda_deserialize_table r !! cls
  ∧ dask_serialize_table (register r) !! cls = dask_serialize_table r !! cls
  ∧ dask_deserialize_table (register r) !! cls
    = dask_deserialize_table r !! cls.
Proof.
  intros Hc Hd. simpl. by rewrite !lookup_insert_ne.
Qed.
End register_facts.

Lemma register_keeps_other_classes_witness :
  "Series"%string ≠ "Column"%string
  ∧ "Series"%string ≠ "DataFrame"%string
  ∧ cuda_serialize_table (register (ColumnLayer:=column_layer)
        (DataFrameLayer:=frame_layer) empty_registry) !! "Series"
    = cuda_serialize_table empty_registry !! "Series"
  ∧ cuda_deserialize_table (register (ColumnLayer:=column_layer)
        (DataFrameLayer:=frame_layer) empty_registry) !! "Series"
    = cuda_deserialize_table empty_registry !! "Series"
  ∧ dask_serialize_table (register (ColumnLayer:=column_layer)
        (DataFrameLayer:=frame_layer) empty_registry) !! "Series"
    = dask_serialize_table empty_registry !! "Series"
  ∧ dask_deserialize_table (register (ColumnLayer:=column_layer)
        (DataFrameLayer:=frame_layer) empty_registry) !! "Series"
    = dask_deserialize_table empty_registry !! "Series".
Proof.
  assert (Hc : "Series"%string ≠ "Column"%string) by discriminate.
  assert (Hd : "Series"%string ≠ "DataFrame"%string) by discriminate.
  split; [exact Hc|]. split; [exact Hd|].
  exact (register_keeps_other_classes (ColumnLayer:=column_layer)
           (DataFrameLayer:=frame_layer) empty_registry "Series" Hc Hd).
Defined.

Lemma fmap_Ok {A B} (g : A → B) (m : M A) w a w' :
  m w = (Ok a, w') → (g <$> m) w = (Ok (g a), w').
Proof. intros E. unfold fmap, M_fmap. by rewrite E. Qed.

Section registered_round_trip.
Context {Header Column DataFrame : Type}.
Context `{ColumnPacking : !Codec Header Column}.
Context `{DataFramePacking : !Codec Header DataFrame}.
#[local] Existing Instance packed_layer.

(** X17 (register, modelled object layer): once [register] has run, an
    object sent through the tables comes back: the hook found for the
    object's class serializes it, and the hook found for that same class
    name rebuilds an equal object from the header and frames, on the device
    path and on the host path. *)
Theorem registered_round_trip (r : @registry Header Column DataFrame)
    (x : DataFrame + Column) (w : world) :
  left_inverse Header Column →
  left_inverse Header DataFrame →
  (∃ header frames w1 w2,
      dumps (cuda_serialize_table (register r)) (type_name x) x w
      = (Ok (header, frames), w1)
      ∧ loads (cuda_deserialize_table (register r)) (type_name x)
          header frames w1 = (Ok x, w2))
  ∧ (∃ header frames w1 w2,
      dumps (dask_serialize_table (register r)) (type_name x) x w
      = (Ok (header, frames), w1)
      ∧ loads (dask_deserialize_table (register r)) (type_name x)
          header frames w1 = (Ok x, w2)).
Proof.
  intros Hcol Hdf.
  pose proof (left_inverse_unpack Hcol) as Ucol.
  pose proof (left_inverse_unpack Hdf) as Udf.
  destruct x as [df|col]; split.
  - destruct (device_round_trip_DataFrame (Column:=Column) df w (Udf df))
      as (header & frames & w1 & w2 & Hs & Hd).
    exists header, frames, w1, w2. rewrite dumps_register_cuda.
    split; [done|]. cbn [type_name].
    destruct (loads_register r header frames w1) as (-> & _).
    by apply fmap_Ok.
  - destruct (host_round_trip_DataFrame (Column:=Column) df w (Udf df))
      as (header & frames & w1 & w2 & Hs & Hd).
    exists header, frames, w1, w2. rewrite dumps_register_dask.
    split; [done|]. cbn [type_name].
    destruct (loads_register r header frames w1) as (_ & _ & -> & _).
    by apply fmap_Ok.
  - destruct (device_round_trip_Column (DataFrame:=DataFrame) col w (Ucol col))
      as (header & frames & w1 & w2 & Hs & Hd).
    exists header, frames, w1, w2. rewrite dumps_register_cuda.
    split; [done|]. cbn [type_name].
    destruct (loads_register r header frames w1) as (_ & -> & _).
    by apply fmap_Ok.
  - destruct (host_round_trip_Column (DataFrame:=DataFrame) col w (Ucol col))
      as (header & frames & w1 & w2 & Hs & Hd).
    exists header, frames, w1, w2. rewrite dumps_register_dask.
    split; [done|]. cbn [type_name].
    destruct (loads_register r header frames w1) as (_ & _ & _ & ->).
    by apply fmap_Ok.
Qed.
End registered_round_trip.

Lemma registered_round_trip_witness :
  left_inverse (list nat) sample_column (Layer:=column_layer)
  ∧ left_inverse (list nat) sample_frame (Layer:=frame_layer)
  ∧ (∃ header frames w1 w2,
      dumps (cuda_serialize_table
               (register (ColumnLayer:=column_layer)
                  (DataFrameLayer:=frame_layer) empty_registry))
        (type_name sent_frame) sent_frame empty_world
      = (Ok (header, frames), w1)
      ∧ loads (cuda_deserialize_table
                 (register (ColumnLayer:=column_layer)
                    (DataFrameLayer:=frame_layer) empty_registry))
          (type_name sent_frame) header frames w1
        = (Ok sent_frame, w2))
  ∧ (∃ header frames w1 w2,
      dumps (dask_serialize_table
               (register (ColumnLayer:=column_layer)
                  (DataFrameLayer:=frame_layer) empty_registry))
        (type_name sent_frame) sent_frame empty_world
      = (Ok (header, frames), w1)
      ∧ loads (dask_deserialize_table
                 (register (ColumnLayer:=column_layer)
                    (DataFrameLayer:=frame_layer) empty_registry))
          (type_name sent_frame) header frames w1
        = (Ok sent_frame, w2)).
Proof.
  split; [exact column_layer_left_inverse|].
  split; [exact frame_layer_left_inverse|].
  exact (registered_round_trip (ColumnPacking:=column_codec)
           (DataFramePacking:=frame_codec) empty_registry sent_frame
           empty_world column_layer_left_inverse frame_layer_left_inverse).
Defined.

(** ** [pylibcudf.nvtext] *)

Lemma import_star_Ok (namespace all : list string) :
  all ⊆ namespace → import_star namespace all = Ok all.
Proof.
  induction all as [|name all IH]; intros Hsub; [done|].
  simpl. rewrite bool_decide_eq_true_2 by set_solver.
  rewrite IH; [done|]. set_solver.
Qed.

(** X18 (nvtext package): every name listed in [__all__] is bound by the
    package's imports, so [from pylibcudf.nvtext import *] raises nothing
    and binds exactly the names of [__all__]; no name is listed twice, and
    no imported submodule is left out of [__all__]. *)
Theorem nvtext_all_matches_imports :
  import_star nvtext_imports nvtext_all = Ok nvtext_all
  ∧ NoDup nvtext_all
  ∧ nvtext_imports ⊆ nvtext_all.
Proof.
  split; [by apply import_star_Ok|].
  split; [|done].
  apply (bool_decide_unpack (NoDup nvtext_all)). by vm_compute.
Qed.

(** ** Exceptions that [log_errors] does not log *)

